(** * PostingDataTable: the row-selectable, keyboard-navigable data table

    A shallow embedding of [src/posting/widgets/datatable.py].  The widget
    is a Python object mutated in place; here every method is a function on
    an explicit [State] record.  Methods that can raise return a [Result]
    that carries the state reached at the moment of the raise, because
    Python keeps the mutations made before an exception.

    Calls the class makes to its collaborators (the message queue, the
    screen's focus chain, the width re-measurement, the redraw request) are
    appended to a [trace], in call order.

    [Checkbox] objects are mutable and are referenced from the cells, so
    they live in a store of their own ([checkboxes]) and a cell holds a
    reference into it. *)

From Stdlib Require Import ZArith String List Bool Lia.
From stdpp Require Import base option list.
Import ListNotations.

Local Open Scope Z_scope.

(** ** Data model *)

(** [RowKey] / [ColumnKey]: a key built from a string compares by that
    string; a key built from [None] is equal only to itself, which the
    model renders by a serial number. *)
Inductive Key : Type :=
  | Named (value : string)
  | Anon (serial : nat).

Definition Key_eqb (a b : Key) : bool :=
  match a, b with
  | Named x, Named y => String.eqb x y
  | Anon m, Anon n => Nat.eqb m n
  | _, _ => false
  end.
Arguments Key_eqb : simpl never.

(** A reference to a [Checkbox] object in the store. *)
Definition loc := nat.

(** What a cell of [_data] can hold: a [str], a rich [Text] (kept by its
    plain content), a reference to a [Checkbox], or [None] (a column the
    row supplied no value for). *)
Inductive Cell : Type :=
  | Str (s : string)
  | RichText (plain : string)
  | CheckboxRef (l : loc)
  | NoCell.

Definition CellKey : Type := (Key * Key)%type.

Definition CellKey_eqb (a b : CellKey) : bool :=
  Key_eqb (fst a) (fst b) && Key_eqb (snd a) (snd b).

Record Coordinate : Type := mkCoordinate { row : Z; column : Z }.

Definition down (c : Coordinate) : Coordinate := mkCoordinate (row c + 1) (column c).
Definition up (c : Coordinate) : Coordinate := mkCoordinate (row c - 1) (column c).

Record Column : Type := mkColumn {
  col_key : Key;
  col_label : option string;
  col_width : option Z            (* [None]: automatic width *)
}.

Record Row : Type := mkRow {
  row_height : option Z;
  row_label : option string;
  row_cells : list (Key * Cell)    (* [_data[row_key]], in column order *)
}.

Inductive CursorType : Type := cell_cursor | row_cursor | column_cursor | none_cursor.

Definition addresses_rows (t : CursorType) : bool :=
  match t with
  | cell_cursor | row_cursor => true
  | column_cursor | none_cursor => false
  end.

(** A message pump handed over as [sender].  [pump_truthy] is the truth
    value Python gives the object, which [if sender:] tests. *)
Record MessagePump : Type := mkMessagePump {
  pump_id : nat;
  pump_truthy : bool
}.

(** The two messages of the class.  [sender] is the pump set by
    [msg.set_sender], when it was called. *)
Inductive Message : Type :=
  | RowsRemoved (explicit_by_user : bool)
  | RowsAdded (explicit_by_user : bool) (sender : option MessagePump).

(** [if sender: msg.set_sender(sender)]: the sender the message carries
    when it is posted.  [None] and a pump that is false in a boolean
    context leave the message without one. *)
Definition attached_sender (sender : option MessagePump) : option MessagePump :=
  match sender with
  | Some pump => if pump_truthy pump then Some pump else None
  | None => None
  end.

Inductive Event : Type :=
  | Posted (m : Message)
  | FocusNext
  | FocusPrevious
  | UpdateColumnWidths (updated_cells : list CellKey)
  | Refresh
  | ScrollDown
  | ScrollUp.

Inductive Exn : Type :=
  | DuplicateKey
  | ValueError
  | RowDoesNotExist
  | CellDoesNotExist
  | AttributeError.

Record State : Type := mkState {
  row_disable : bool;
  cursor_vertical_escape : bool;
  _fixed_columns_bak : option Z;
  fixed_columns : Z;
  columns : list Column;
  rows : list (Key * Row);
  checkboxes : list bool;
  cursor_coordinate : Coordinate;
  show_cursor : bool;
  cursor_type : CursorType;
  _show_hover_cursor : bool;
  _update_count : Z;
  key_serial : nat;
  empty_class : bool;
  trace : list Event
}.

Inductive Result (A : Type) : Type :=
  | Ok (s : State) (a : A)
  | Raise (s : State) (e : Exn).
Arguments Ok {A} s a.
Arguments Raise {A} s e.

Definition bind {A B : Type} (r : Result A) (k : State -> A -> Result B) : Result B :=
  match r with
  | Ok s a => k s a
  | Raise s e => Raise s e
  end.

Notation "'do' ( s , a ) <- r ; k" := (bind r (fun s a => k))
  (at level 10, s name, a name, r at level 100, k at level 200).

(** [try: ... except CellDoesNotExist: pass] *)
Definition except_CellDoesNotExist_pass (r : Result unit) : Result unit :=
  match r with
  | Ok s a => Ok s a
  | Raise s CellDoesNotExist => Ok s tt
  | Raise s e => Raise s e
  end.

(** ** Attribute assignment *)

Definition set_fixed_columns (v : Z) (s : State) : State :=
  mkState (row_disable s) (cursor_vertical_escape s) (_fixed_columns_bak s) v
    (columns s) (rows s) (checkboxes s) (cursor_coordinate s) (show_cursor s)
    (cursor_type s) (_show_hover_cursor s) (_update_count s) (key_serial s)
    (empty_class s) (trace s).

Definition set_fixed_columns_bak (v : option Z) (s : State) : State :=
  mkState (row_disable s) (cursor_vertical_escape s) v (fixed_columns s)
    (columns s) (rows s) (checkboxes s) (cursor_coordinate s) (show_cursor s)
    (cursor_type s) (_show_hover_cursor s) (_update_count s) (key_serial s)
    (empty_class s) (trace s).

Definition set_columns (v : list Column) (s : State) : State :=
  mkState (row_disable s) (cursor_vertical_escape s) (_fixed_columns_bak s)
    (fixed_columns s) v (rows s) (checkboxes s) (cursor_coordinate s)
    (show_cursor s) (cursor_type s) (_show_hover_cursor s) (_update_count s)
    (key_serial s) (empty_class s) (trace s).

Definition set_rows (v : list (Key * Row)) (s : State) : State :=
  mkState (row_disable s) (cursor_vertical_escape s) (_fixed_columns_bak s)
    (fixed_columns s) (columns s) v (checkboxes s) (cursor_coordinate s)
    (show_cursor s) (cursor_type s) (_show_hover_cursor s) (_update_count s)
    (key_serial s) (empty_class s) (trace s).

Definition set_checkboxes (v : list bool) (s : State) : State :=
  mkState (row_disable s) (cursor_vertical_escape s) (_fixed_columns_bak s)
    (fixed_columns s) (columns s) (rows s) v (cursor_coordinate s)
    (show_cursor s) (cursor_type s) (_show_hover_cursor s) (_update_count s)
    (key_serial s) (empty_class s) (trace s).

(** The raw store of the cursor; assignments go through
    [DataTable.set_cursor_coordinate], which validates. *)
Definition store_cursor_coordinate (v : Coordinate) (s : State) : State :=
  mkState (row_disable s) (cursor_vertical_escape s) (_fixed_columns_bak s)
    (fixed_columns s) (columns s) (rows s) (checkboxes s) v
    (show_cursor s) (cursor_type s) (_show_hover_cursor s) (_update_count s)
    (key_serial s) (empty_class s) (trace s).

Definition set_show_hover_cursor (v : bool) (s : State) : State :=
  mkState (row_disable s) (cursor_vertical_escape s) (_fixed_columns_bak s)
    (fixed_columns s) (columns s) (rows s) (checkboxes s) (cursor_coordinate s)
    (show_cursor s) (cursor_type s) v (_update_count s)
    (key_serial s) (empty_class s) (trace s).

Definition set_update_count (v : Z) (s : State) : State :=
  mkState (row_disable s) (cursor_vertical_escape s) (_fixed_columns_bak s)
    (fixed_columns s) (columns s) (rows s) (checkboxes s) (cursor_coordinate s)
    (show_cursor s) (cursor_type s) (_show_hover_cursor s) v
    (key_serial s) (empty_class s) (trace s).

Definition set_key_serial (v : nat) (s : State) : State :=
  mkState (row_disable s) (cursor_vertical_escape s) (_fixed_columns_bak s)
    (fixed_columns s) (columns s) (rows s) (checkboxes s) (cursor_coordinate s)
    (show_cursor s) (cursor_type s) (_show_hover_cursor s) (_update_count s)
    v (empty_class s) (trace s).

Definition set_empty_class (v : bool) (s : State) : State :=
  mkState (row_disable s) (cursor_vertical_escape s) (_fixed_columns_bak s)
    (fixed_columns s) (columns s) (rows s) (checkboxes s) (cursor_coordinate s)
    (show_cursor s) (cursor_type s) (_show_hover_cursor s) (_update_count s)
    (key_serial s) v (trace s).

(** Appends one collaborator call to the trace. *)
Definition emit (e : Event) (s : State) : State :=
  mkState (row_disable s) (cursor_vertical_escape s) (_fixed_columns_bak s)
    (fixed_columns s) (columns s) (rows s) (checkboxes s) (cursor_coordinate s)
    (show_cursor s) (cursor_type s) (_show_hover_cursor s) (_update_count s)
    (key_serial s) (empty_class s) (trace s ++ [e]).

(** ** Keyed, ordered dictionaries

    [columns], [rows] and [_data] are insertion-ordered dicts whose order
    the code relies on ([list(self._data.keys())[0]]), so they are kept as
    association lists. *)

Fixpoint lookup_key {A : Type} (k : Key) (d : list (Key * A)) : option A :=
  match d with
  | [] => None
  | (k', v) :: d' => if Key_eqb k' k then Some v else lookup_key k d'
  end.

Definition has_key {A : Type} (k : Key) (d : list (Key * A)) : bool :=
  match lookup_key k d with Some _ => true | None => false end.

Fixpoint delete_key {A : Type} (k : Key) (d : list (Key * A)) : list (Key * A) :=
  match d with
  | [] => []
  | (k', v) :: d' => if Key_eqb k' k then delete_key k d' else (k', v) :: delete_key k d'
  end.

Definition has_column (k : Key) (cols : list Column) : bool :=
  existsb (fun c => Key_eqb (col_key c) k) cols.

(** [zip_longest(self.ordered_columns, cells)], for no more cells than
    columns: a column without a supplied cell gets [None]. *)
Fixpoint zip_longest (cols : list Column) (cells : list Cell) : list (Key * Cell) :=
  match cols with
  | [] => []
  | c :: cols' =>
      match cells with
      | [] => (col_key c, NoCell) :: zip_longest cols' []
      | v :: cells' => (col_key c, v) :: zip_longest cols' cells'
      end
  end.

(** ** The inherited table

    [PostingDataTable] extends Textual's [DataTable], whose code is not
    part of the repository.  The methods the subclass calls are modelled
    here, one definition per method.  Where the description of a method
    leaves a detail open (the order of the bounds given to [clamp], the
    [None] padding of a row shorter than the column list, the error on a
    row longer than it, the [default] written into existing rows by
    [add_column]) the model follows the library.  Rendering is left out:
    the base class's own redraws, scrolling and cursor-highlight messages
    are not recorded in the trace, and [_update_column_widths] records
    the cells it is handed instead of measuring them. *)

Module DataTable.

(** Modelled from the spec: [row_count] of the Textual base class
    [DataTable], which is not under src/; the number of rows held. *)
Definition row_count (self : State) : Z := Z.of_nat (length (rows self)).

(** Modelled from the spec: [textual.geometry.clamp], not under src/;
    restricts a value to a range whose bounds may come in either order. *)
Definition clamp (value minimum maximum : Z) : Z :=
  if maximum <? minimum then
    if value <? maximum then maximum
    else if minimum <? value then minimum
    else value
  else
    if value <? minimum then minimum
    else if maximum <? value then maximum
    else value.

(** Modelled from the spec: [DataTable._clamp_cursor_coordinate], not
    under src/; the cursor is kept within the grid ("clamped"). *)
Definition _clamp_cursor_coordinate (self : State) (c : Coordinate) : Coordinate :=
  mkCoordinate (clamp (row c) 0 (row_count self - 1))
               (clamp (column c) 0 (Z.of_nat (length (columns self)) - 1)).

(** Modelled from the spec: assignment to the reactive attribute
    [cursor_coordinate] of the base class, not under src/; the assigned
    value is validated by clamping before it is stored. *)
Definition set_cursor_coordinate (self : State) (c : Coordinate) : State :=
  store_cursor_coordinate (_clamp_cursor_coordinate self c) self.

(** Modelled from the spec: [DataTable.is_valid_coordinate], not under
    src/; 0 <= row < row count and 0 <= column < column count. *)
Definition is_valid_coordinate (self : State) (c : Coordinate) : bool :=
  (0 <=? row c) && (row c <? row_count self) &&
  (0 <=? column c) && (column c <? Z.of_nat (length (columns self))).

(** Modelled from the spec: [DataTable.coordinate_to_cell_key], not under
    src/; fails with [CellDoesNotExist] when the coordinate is out of
    range, else gives the keys of the row and column at that position. *)
Definition coordinate_to_cell_key (self : State) (c : Coordinate) : Result CellKey :=
  if is_valid_coordinate self c then
    match rows self !! Z.to_nat (row c), columns self !! Z.to_nat (column c) with
    | Some (row_key, _), Some col => Ok self (row_key, col_key col)
    | _, _ => Raise self CellDoesNotExist
    end
  else Raise self CellDoesNotExist.

(** Modelled from the spec: [DataTable.get_cell], not under src/; the
    value stored under the two keys, [CellDoesNotExist] when either key
    is absent. *)
Definition get_cell (self : State) (row_key column_key : Key) : Result Cell :=
  match lookup_key row_key (rows self) with
  | Some r =>
      match lookup_key column_key (row_cells r) with
      | Some v => Ok self v
      | None => Raise self CellDoesNotExist
      end
  | None => Raise self CellDoesNotExist
  end.

(** Modelled from the spec: the construction [RowKey(key)] /
    [ColumnKey(key)] of the base class, not under src/; a key made from
    [None] is a new key equal to no other. *)
Definition make_key (self : State) (key : option string) : State * Key :=
  match key with
  | Some k => (self, Named k)
  | None => (set_key_serial (S (key_serial self)) self, Anon (key_serial self))
  end.

(** Modelled from the spec: [DataTable.add_column], not under src/;
    appends a column, fails with [DuplicateKey] when the key collides.
    Rows that already exist receive [default] in the new column. *)
Definition add_column (self : State) (label : option string) (width : option Z)
    (key : option string) (default : Cell) : Result Key :=
  let (s1, column_key) := make_key self key in
  if has_column column_key (columns s1) then Raise s1 DuplicateKey
  else
    let s2 := set_columns (columns s1 ++ [mkColumn column_key label width]) s1 in
    let s3 := set_rows
                (map (fun kr => (fst kr,
                        mkRow (row_height (snd kr)) (row_label (snd kr))
                              (row_cells (snd kr) ++ [(column_key, default)])))
                     (rows s2)) s2 in
    Ok s3 column_key.

(** Modelled from the spec: [DataTable.add_row], not under src/; appends a
    row at the end, fails with [DuplicateKey] when the key collides and
    with [ValueError] when more cells than columns are supplied. *)
Definition add_row (self : State) (cells : list Cell) (height : option Z)
    (key label : option string) : Result Key :=
  let (s1, row_key) := make_key self key in
  if has_key row_key (rows s1) then Raise s1 DuplicateKey
  else if (length (columns s1) <? length cells)%nat then Raise s1 ValueError
  else
    let s2 := set_rows (rows s1 ++ [(row_key, mkRow height label (zip_longest (columns s1) cells))]) s1 in
    let s3 := set_cursor_coordinate s2 (cursor_coordinate s2) in
    Ok (set_update_count (_update_count s3 + 1) s3) row_key.

(** Modelled from the spec: [DataTable.remove_row], not under src/;
    removes the identified row and keeps the order of the others, fails
    with [RowDoesNotExist] when the key is absent. *)
Definition remove_row (self : State) (row_key : Key) : Result unit :=
  if has_key row_key (rows self) then
    let s1 := set_rows (delete_key row_key (rows self)) self in
    let s2 := set_cursor_coordinate s1 (cursor_coordinate s1) in
    Ok (set_update_count (_update_count s2 + 1) s2) tt
  else Raise self RowDoesNotExist.

(** Modelled from the spec: [DataTable.clear], not under src/; removes
    all rows and, when [columns] is set, all column definitions. *)
Definition clear (self : State) (columns : bool) : State :=
  let s1 := set_rows [] self in
  let s2 := if columns then set_columns [] s1 else s1 in
  set_cursor_coordinate s2 (mkCoordinate 0 0).

(** Modelled from the spec: [DataTable._set_hover_cursor], not under
    src/; switches the mouse-hover highlight. *)
Definition _set_hover_cursor (self : State) (active : bool) : State :=
  set_show_hover_cursor active self.

(** Modelled from the spec: the base single-step-down behavior
    [DataTable.action_cursor_down], not under src/. *)
Definition action_cursor_down (self : State) : State :=
  let s1 := _set_hover_cursor self false in
  if show_cursor s1 && addresses_rows (cursor_type s1) then
    set_cursor_coordinate s1 (down (cursor_coordinate s1))
  else emit ScrollDown s1.

(** Modelled from the spec: the base single-step-up behavior
    [DataTable.action_cursor_up], not under src/. *)
Definition action_cursor_up (self : State) : State :=
  let s1 := _set_hover_cursor self false in
  if show_cursor s1 && addresses_rows (cursor_type s1) then
    set_cursor_coordinate s1 (up (cursor_coordinate s1))
  else emit ScrollUp s1.

(** Modelled from the spec: [DataTable._update_column_widths], not under
    src/; re-measures the cells it is handed.  The model records which
    cells were handed over. *)
Definition _update_column_widths (self : State) (updated_cells : list CellKey) : State :=
  emit (UpdateColumnWidths updated_cells) self.

(** Modelled from the spec: [post_message] of the message pump, not under
    src/; queues the message for later delivery. *)
Definition post_message (self : State) (msg : Message) : State :=
  emit (Posted msg) self.

(** Modelled from the spec: [Widget.refresh], not under src/; requests a
    redraw. *)
Definition refresh (self : State) : State := emit Refresh self.

(** Modelled from the spec: [Screen.focus_next] and
    [Screen.focus_previous] of the host, not under src/; the focus
    transfer requested at a grid boundary. *)
Definition focus_next (self : State) : State := emit FocusNext self.
Definition focus_previous (self : State) : State := emit FocusPrevious self.

End DataTable.

(** ** PostingDataTable *)

(** [__init__]: the base constructor (whose keyword arguments fix the
    number of fixed columns and the cursor display), then the three
    attributes of the subclass.  A new table has no columns, no rows and
    its cursor at (0, 0). *)
Definition __init__ (fixed : Z) (show : bool) (kind : CursorType) : State :=
  {| row_disable := false;
     cursor_vertical_escape := true;
     _fixed_columns_bak := None;
     fixed_columns := fixed;
     columns := [];
     rows := [];
     checkboxes := [];
     cursor_coordinate := mkCoordinate 0 0;
     show_cursor := show;
     cursor_type := kind;
     _show_hover_cursor := false;
     _update_count := 0;
     key_serial := 0%nat;
     empty_class := false;
     trace := [] |}.

(** The host assigns [row_disable] after construction. *)
Definition set_row_disable (v : bool) (s : State) : State :=
  mkState v (cursor_vertical_escape s) (_fixed_columns_bak s)
    (fixed_columns s) (columns s) (rows s) (checkboxes s) (cursor_coordinate s)
    (show_cursor s) (cursor_type s) (_show_hover_cursor s) (_update_count s)
    (key_serial s) (empty_class s) (trace s).

Definition set_cursor_vertical_escape (v : bool) (s : State) : State :=
  mkState (row_disable s) v (_fixed_columns_bak s)
    (fixed_columns s) (columns s) (rows s) (checkboxes s) (cursor_coordinate s)
    (show_cursor s) (cursor_type s) (_show_hover_cursor s) (_update_count s)
    (key_serial s) (empty_class s) (trace s).

(** [Checkbox(checked)]: a new object in the store. *)
Definition Checkbox (self : State) (checked : bool) : State * loc :=
  (set_checkboxes (checkboxes self ++ [checked]) self, length (checkboxes self)).

(** [Checkbox.toggle], called on whatever the cell holds: only a
    [Checkbox] has the method. *)
Definition toggle (self : State) (checkbox : Cell) : Result bool :=
  match checkbox with
  | CheckboxRef l =>
      match checkboxes self !! l with
      | Some checked =>
          Ok (set_checkboxes (<[l := negb checked]> (checkboxes self)) self) (negb checked)
      | None => Raise self AttributeError
      end
  | _ => Raise self AttributeError
  end.

Definition add_row (self : State) (cells : list Cell) (height : option Z)
    (key label : option string) (explicit_by_user : bool)
    (sender : option MessagePump)
    : Result Key :=
  let (s1, cells1) :=
    if row_disable self then
      let (s', l) := Checkbox self true in (s', CheckboxRef l :: cells)
    else (self, cells) in
  let msg := RowsAdded explicit_by_user (attached_sender sender) in
  let s2 := DataTable.post_message s1 msg in
  DataTable.add_row s2 cells1 height key label.

Definition add_column (self : State) (label : option string) (width : option Z)
    (key : option string) (default : Cell) : Result Key :=
  do (s1, _) <- (if row_disable self && (length (columns self) =? 0)%nat
                 then DataTable.add_column self (Some ""%string) (Some 1)
                        (Some "checkbox"%string) NoCell
                 else Ok self (Named "checkbox"%string));
  DataTable.add_column s1 label width key default.

Definition action_toggle_fixed_columns (self : State) : State :=
  let s1 := match _fixed_columns_bak self with
            | None => set_fixed_columns_bak (Some (fixed_columns self)) self
            | Some _ => self
            end in
  set_fixed_columns
    (if fixed_columns s1 =? 0
     then match _fixed_columns_bak s1 with Some b => b | None => 0 end
     else 0) s1.

Definition _column_width_refresh (self : State) : State :=
  if 0 <? DataTable.row_count self then
    match rows self with
    | (row_zero, first) :: _ =>
        let columns := map fst (row_cells first) in
        DataTable._update_column_widths self (map (fun column => (row_zero, column)) columns)
    | [] => self
    end
  else self.

Definition remove_row (self : State) (row_key : Key) : Result unit :=
  let s1 := DataTable.post_message self (RowsRemoved true) in
  do (s2, rv) <- DataTable.remove_row s1 row_key;
  Ok (_column_width_refresh s2) rv.

Definition clear (self : State) (columns : bool) : State :=
  let s1 := DataTable.post_message self (RowsRemoved false) in
  let s2 := DataTable.clear s1 columns in
  _column_width_refresh s2.

(** The loop [for row in rows: self.add_row( *row, explicit_by_user=False)]. *)
Fixpoint add_each_row (self : State) (new_rows : list (list Cell)) : Result unit :=
  match new_rows with
  | [] => Ok self tt
  | r :: rest =>
      do (s1, _) <- add_row self r (Some 1) None None false None;
      add_each_row s1 rest
  end.

Definition replace_all_rows (self : State) (new_rows : list (list Cell)) : Result unit :=
  let s1 := clear self false in
  do (s2, _) <- add_each_row s1 new_rows;
  Ok (_column_width_refresh s2) tt.

Definition action_cursor_down (self : State) : State :=
  let s1 := DataTable._set_hover_cursor self false in
  if (row (cursor_coordinate s1) =? DataTable.row_count s1 - 1)
     && cursor_vertical_escape s1
  then DataTable.focus_next s1
  else
    if show_cursor s1 && addresses_rows (cursor_type s1) then
      let r := row (cursor_coordinate s1) in
      let c := column (cursor_coordinate s1) in
      if r =? DataTable.row_count s1 - 1
      then DataTable.set_cursor_coordinate s1 (mkCoordinate 0 c)
      else DataTable.set_cursor_coordinate s1 (down (cursor_coordinate s1))
    else DataTable.action_cursor_down s1.

Definition action_cursor_up (self : State) : State :=
  let s1 := DataTable._set_hover_cursor self false in
  if (row (cursor_coordinate s1) =? 0) && cursor_vertical_escape s1
  then DataTable.focus_previous s1
  else
    if show_cursor s1 && addresses_rows (cursor_type s1) then
      let r := row (cursor_coordinate s1) in
      let c := column (cursor_coordinate s1) in
      if r =? 0
      then DataTable.set_cursor_coordinate s1 (mkCoordinate (DataTable.row_count s1 - 1) c)
      else DataTable.set_cursor_coordinate s1 (up (cursor_coordinate s1))
    else DataTable.action_cursor_up s1.

(** The handler of both messages: [set_class(self.row_count == 0, "empty")]. *)
Definition _on_rows_removed (self : State) (event : Message) : State :=
  set_empty_class (DataTable.row_count self =? 0) self.

Definition action_remove_row (self : State) : Result unit :=
  except_CellDoesNotExist_pass
    (do (s1, cursor_cell_key) <-
        DataTable.coordinate_to_cell_key self (cursor_coordinate self);
     let cursor_row_key := fst cursor_cell_key in
     remove_row s1 cursor_row_key).

Definition action_toggle_row (self : State) : Result unit :=
  except_CellDoesNotExist_pass
    (do (s1, cursor_cell_key) <-
        DataTable.coordinate_to_cell_key self (cursor_coordinate self);
     let cursor_row_key := fst cursor_cell_key in
     do (s2, checkbox) <- DataTable.get_cell s1 cursor_row_key (Named "checkbox"%string);
     do (s3, _) <- toggle s2 checkbox;
     let s4 := set_update_count (_update_count s3 + 1) s3 in
     Ok (DataTable.refresh s4) tt).

(** ** Observations *)

Definition state_of {A : Type} (r : Result A) : State :=
  match r with Ok s _ => s | Raise s _ => s end.

Definition raised {A : Type} (r : Result A) : option Exn :=
  match r with Ok _ _ => None | Raise _ e => Some e end.

(** The checked flag a row shows: that of the [Checkbox] its checkbox
    column refers to. *)
Definition row_checked (s : State) (row_key : Key) : option bool :=
  match lookup_key row_key (rows s) with
  | Some r =>
      match lookup_key (Named "checkbox"%string) (row_cells r) with
      | Some (CheckboxRef l) => checkboxes s !! l
      | _ => None
      end
  | None => None
  end.

(** Every cell of the current row set. *)
Definition all_cell_keys (s : State) : list CellKey :=
  flat_map (fun kr => map (fun kc => (fst kr, fst kc)) (row_cells (snd kr))) (rows s).

(** The cells of the first row of the current row set. *)
Definition first_row_cell_keys (s : State) : list CellKey :=
  match rows s with
  | [] => []
  | (row_zero, first) :: _ => map (fun kc => (row_zero, fst kc)) (row_cells first)
  end.

(** The cells handed to the width re-measurement by the calls in a trace. *)
Fixpoint remeasured (t : list Event) : list CellKey :=
  match t with
  | [] => []
  | UpdateColumnWidths cells :: t' => cells ++ remeasured t'
  | _ :: t' => remeasured t'
  end.

Definition is_focus_transfer (e : Event) : bool :=
  match e with FocusNext | FocusPrevious => true | _ => false end.

(** ** Sample tables *)

(** A table in row-selection mode with columns "k" and "v" (so, with the
    checkbox column, three), built through the public methods. *)
Definition selectable : State :=
  let s0 := set_row_disable true (__init__ 1 true row_cursor) in
  let s1 := state_of (add_column s0 (Some "Key"%string) None (Some "k"%string) NoCell) in
  state_of (add_column s1 (Some "Value"%string) None (Some "v"%string) NoCell).

(** The scenario table: rows ("a","b") and ("c","d"). *)
Definition two_rows : State :=
  let s1 := state_of (add_row selectable [Str "a"; Str "b"] (Some 1) (Some "r0"%string) None true None) in
  state_of (add_row s1 [Str "c"; Str "d"] (Some 1) (Some "r1"%string) None true None).

Definition three_rows : State :=
  state_of (add_row two_rows [Str "e"; Str "f"] (Some 1) (Some "r2"%string) None true None).

Definition at_row (r : Z) (s : State) : State :=
  DataTable.set_cursor_coordinate s (mkCoordinate r (column (cursor_coordinate s))).

(** [n] presses of the toggle-fixed-columns key. *)
Fixpoint toggle_fixed_columns_times (n : nat) (s : State) : State :=
  match n with
  | O => s
  | S n' => action_toggle_fixed_columns (toggle_fixed_columns_times n' s)
  end.

(** A table created with two fixed columns, toggled once by the user, to
    which the host then assigns [fixed_columns = 3]. *)
Definition reassigned_fixed_columns : State :=
  set_fixed_columns 3 (action_toggle_fixed_columns (__init__ 2 true cell_cursor)).

(** What the toggle key alone establishes: once a count is remembered,
    the current count is 0 or the remembered one. *)
Definition fixed_columns_in_step (s : State) : Prop :=
  match _fixed_columns_bak s with
  | None => True
  | Some b => fixed_columns s = 0 \/ fixed_columns s = b
  end.

(** A table without row selection: one column, one row, no checkbox
    column. *)
Definition plain_one_row : State :=
  let s1 := state_of (add_column (__init__ 0 true cell_cursor)
                        (Some "Name"%string) None (Some "n"%string) NoCell) in
  state_of (add_row s1 [Str "x"] (Some 1) (Some "r0"%string) None true None).

(** The checkbox column that [add_column] inserts. *)
Definition checkbox_column : Column :=
  mkColumn (Named "checkbox"%string) (Some ""%string) (Some 1).

Definition is_checkbox_column (c : Column) : bool :=
  Key_eqb (col_key c) (Named "checkbox"%string).

(** The arguments of one [add_column] call. *)
Record AddColumnCall : Type := mkAddColumnCall {
  ac_label : option string;
  ac_width : option Z;
  ac_key : option string;
  ac_default : Cell
}.

(** A sequence of [add_column] calls; a call that raises leaves the table
    as it stood at the raise and the host goes on with the next call. *)
Fixpoint add_columns (s : State) (calls : list AddColumnCall) : State :=
  match calls with
  | [] => s
  | c :: rest =>
      add_columns (state_of (add_column s (ac_label c) (ac_width c) (ac_key c) (ac_default c))) rest
  end.

(** The same sequence of calls made on the inherited [add_column]. *)
Fixpoint base_add_columns (s : State) (calls : list AddColumnCall) : State :=
  match calls with
  | [] => s
  | c :: rest =>
      base_add_columns
        (state_of (DataTable.add_column s (ac_label c) (ac_width c) (ac_key c) (ac_default c))) rest
  end.

(** The arguments of one [add_row] call. *)
Record AddRowCall : Type := mkAddRowCall {
  ar_cells : list Cell;
  ar_height : option Z;
  ar_key : option string;
  ar_label : option string;
  ar_explicit_by_user : bool;
  ar_sender : option MessagePump
}.

(** A sequence of [add_row] calls; a call that raises leaves the table as
    it stood at the raise and the host goes on with the next call. *)
Fixpoint add_rows (s : State) (calls : list AddRowCall) : State :=
  match calls with
  | [] => s
  | c :: rest =>
      add_rows (state_of (add_row s (ar_cells c) (ar_height c) (ar_key c) (ar_label c)
                            (ar_explicit_by_user c) (ar_sender c))) rest
  end.

(** The two calls that build [two_rows] from [selectable]. *)
Definition two_row_calls : list AddRowCall :=
  [mkAddRowCall [Str "a"; Str "b"] (Some 1) (Some "r0"%string) None true None;
   mkAddRowCall [Str "c"; Str "d"] (Some 1) (Some "r1"%string) None true None].

(** The [Checkbox] object a row's checkbox column refers to. *)
Definition row_checkbox_ref (r : Row) : option loc :=
  match lookup_key (Named "checkbox"%string) (row_cells r) with
  | Some (CheckboxRef l) => Some l
  | _ => None
  end.

Definition checkbox_ref (s : State) (row_key : Key) : option loc :=
  match lookup_key row_key (rows s) with
  | Some r => row_checkbox_ref r
  | None => None
  end.

(** No two rows refer to the same [Checkbox] object. *)
Definition checkboxes_unshared (s : State) : Prop :=
  forall k1 k2 l, checkbox_ref s k1 = Some l -> checkbox_ref s k2 = Some l -> k1 = k2.

(** The cells a caller supplies: [str | Text]. *)
Definition business_cell (c : Cell) : bool :=
  match c with
  | Str _ | RichText _ => true
  | CheckboxRef _ | NoCell => false
  end.

(** A [default] a caller supplies: [str | Text | None]. *)
Definition business_default (c : Cell) : bool :=
  match c with
  | Str _ | RichText _ | NoCell => true
  | CheckboxRef _ => false
  end.

(** Every referenced [Checkbox] exists and belongs to one row. *)
Definition checkboxes_owned (s : State) : Prop :=
  (forall k l, checkbox_ref s k = Some l -> (l < length (checkboxes s))%nat) /\
  checkboxes_unshared s.

(** The tables a host can build: a new table, changed by the methods and
    commands of the class and by assignments to its public attributes,
    with cells of the declared types. *)
Inductive reachable : State -> Prop :=
  | reach_init fixed show kind :
      reachable (__init__ fixed show kind)
  | reach_set_row_disable v s :
      reachable s -> reachable (set_row_disable v s)
  | reach_set_cursor_vertical_escape v s :
      reachable s -> reachable (set_cursor_vertical_escape v s)
  | reach_set_fixed_columns v s :
      reachable s -> reachable (set_fixed_columns v s)
  | reach_set_cursor_coordinate c s :
      reachable s -> reachable (DataTable.set_cursor_coordinate s c)
  | reach_add_column s label width key default :
      reachable s -> business_default default = true ->
      reachable (state_of (add_column s label width key default))
  | reach_add_row s cells height key label explicit_by_user sender :
      reachable s -> forallb business_cell cells = true ->
      reachable (state_of (add_row s cells height key label explicit_by_user sender))
  | reach_remove_row s row_key :
      reachable s -> reachable (state_of (remove_row s row_key))
  | reach_clear s cols :
      reachable s -> reachable (clear s cols)
  | reach_replace_all_rows s new_rows :
      reachable s ->
      forallb (forallb business_cell) new_rows = true ->
      reachable (state_of (replace_all_rows s new_rows))
  | reach_action_toggle_fixed_columns s :
      reachable s -> reachable (action_toggle_fixed_columns s)
  | reach_action_cursor_down s :
      reachable s -> reachable (action_cursor_down s)
  | reach_action_cursor_up s :
      reachable s -> reachable (action_cursor_up s)
  | reach_action_remove_row s :
      reachable s -> reachable (state_of (action_remove_row s))
  | reach_action_toggle_row s :
      reachable s -> reachable (state_of (action_toggle_row s))
  | reach_on_rows_removed s event :
      reachable s -> reachable (_on_rows_removed s event).

(** The focus transfers among the calls of a trace. *)
Definition focus_requests (t : list Event) : list Event :=
  filter (fun e => is_focus_transfer e = true) t.

(** The messages posted among the calls of a trace. *)
Fixpoint posted (t : list Event) : list Message :=
  match t with
  | [] => []
  | Posted m :: t' => m :: posted t'
  | _ :: t' => posted t'
  end.

(** The columns of [selectable] were added in row-selection mode; the
    host then switches the mode off and adds a row, whose first cell, a
    [str], lands in the checkbox column. *)
Definition text_in_checkbox_column : State :=
  state_of (add_row (set_row_disable false selectable) [Str "a"; Str "b"]
              (Some 1) (Some "r0"%string) None true None).

(** The row keys, in row order. *)
Definition row_keys (s : State) : list Key := map fst (rows s).

(** A new, empty table on which the host disables vertical escape, the
    user presses move-up, and the host enables vertical escape again. *)
Definition empty_cursor_below_zero : State :=
  set_cursor_vertical_escape true
    (action_cursor_up
       (set_cursor_vertical_escape false (__init__ 0 true cell_cursor))).

(** * Properties *)

(** ** Toggling the fixed columns *)

Lemma toggle_fixed_columns_twice_value (s : State) :
  fixed_columns (action_toggle_fixed_columns (action_toggle_fixed_columns s)) =
  match _fixed_columns_bak s with
  | None => fixed_columns s
  | Some b => if fixed_columns s =? 0 then fixed_columns s else b
  end.
Proof.
  destruct s as [rd ve bak fc cols rws cbs cur sc ct hov uc ks ec tr].
  unfold action_toggle_fixed_columns; simpl.
  destruct bak as [b|]; simpl.
  - destruct (Z.eqb_spec fc 0) as [->|Hfc]; simpl.
    + destruct (Z.eqb_spec b 0) as [->|Hb]; reflexivity.
    + reflexivity.
  - destruct (Z.eqb_spec fc 0) as [->|Hfc]; simpl; reflexivity.
Qed.

Lemma toggle_fixed_columns_in_step (s : State) :
  fixed_columns_in_step s -> fixed_columns_in_step (action_toggle_fixed_columns s).
Proof.
  destruct s as [rd ve bak fc cols rws cbs cur sc ct hov uc ks ec tr].
  unfold fixed_columns_in_step, action_toggle_fixed_columns; simpl.
  destruct bak as [b|]; simpl; intros H.
  - destruct (Z.eqb_spec fc 0); [right | left]; reflexivity.
  - destruct (Z.eqb_spec fc 0); [right | left]; reflexivity.
Qed.

Lemma toggle_fixed_columns_times_in_step (n : nat) (fixed : Z) (show : bool) (kind : CursorType) :
  fixed_columns_in_step (toggle_fixed_columns_times n (__init__ fixed show kind)).
Proof.
  induction n as [|n IH]; simpl.
  - exact I.
  - apply toggle_fixed_columns_in_step, IH.
Qed.

(** When only the toggle key has ever changed the count, two presses
    always restore it. *)
Lemma toggle_fixed_columns_twice_after_presses (n : nat) (fixed : Z) (show : bool) (kind : CursorType) :
  let s := toggle_fixed_columns_times n (__init__ fixed show kind) in
  fixed_columns (action_toggle_fixed_columns (action_toggle_fixed_columns s)) = fixed_columns s.
Proof.
  intros s. rewrite toggle_fixed_columns_twice_value.
  pose proof (toggle_fixed_columns_times_in_step n fixed show kind) as H.
  fold s in H. unfold fixed_columns_in_step in H.
  destruct (_fixed_columns_bak s) as [b|]; [|reflexivity].
  destruct (Z.eqb_spec (fixed_columns s) 0) as [E|E]; [reflexivity|].
  destruct H as [H|H]; congruence.
Qed.

(** C3, as stated, fails: with 2 remembered by an earlier press and the
    count since set to 3, two presses end at 2, not back at 3. *)
Lemma toggle_fixed_columns_twice_stale_backup :
  _fixed_columns_bak reassigned_fixed_columns = Some 2 /\
  fixed_columns reassigned_fixed_columns = 3 /\
  fixed_columns (action_toggle_fixed_columns
                   (action_toggle_fixed_columns reassigned_fixed_columns)) = 2 /\
  fixed_columns (action_toggle_fixed_columns
                   (action_toggle_fixed_columns reassigned_fixed_columns))
    <> fixed_columns reassigned_fixed_columns.
Proof. repeat split; try reflexivity. vm_compute. discriminate. Qed.

(** C3, amended: two presses of the toggle-fixed-columns key return the
    count to its starting value whenever no count has been remembered yet,
    or the starting count is 0, or it equals the remembered count.
    Otherwise (a count is remembered, and the starting count is neither 0
    nor that count) the first press sets the count to 0 and the second
    restores the remembered count, not the starting one; the remembered
    count is not replaced. *)
Theorem toggle_fixed_columns_twice (s : State) :
  (_fixed_columns_bak s = None \/ fixed_columns s = 0 \/
     _fixed_columns_bak s = Some (fixed_columns s) ->
   fixed_columns (action_toggle_fixed_columns (action_toggle_fixed_columns s)) =
   fixed_columns s) /\
  (forall b,
     _fixed_columns_bak s = Some b ->
     fixed_columns s <> 0 ->
     fixed_columns s <> b ->
     fixed_columns (action_toggle_fixed_columns s) = 0 /\
     fixed_columns (action_toggle_fixed_columns (action_toggle_fixed_columns s)) = b /\
     fixed_columns (action_toggle_fixed_columns (action_toggle_fixed_columns s)) <>
       fixed_columns s /\
     _fixed_columns_bak (action_toggle_fixed_columns (action_toggle_fixed_columns s)) =
       Some b).
Proof.
  split.
  - intros H. rewrite toggle_fixed_columns_twice_value.
    destruct (_fixed_columns_bak s) as [b|] eqn:Hb; [|reflexivity].
    destruct (Z.eqb_spec (fixed_columns s) 0) as [E|E]; [reflexivity|].
    destruct H as [H|[H|H]]; congruence.
  - intros b Hb Hnz Hne.
    assert (Htwice : fixed_columns
                       (action_toggle_fixed_columns (action_toggle_fixed_columns s)) = b).
    { rewrite toggle_fixed_columns_twice_value, Hb.
      destruct (Z.eqb_spec (fixed_columns s) 0); [contradiction | reflexivity]. }
    split; [|split; [exact Htwice|split; [rewrite Htwice; congruence|]]].
    + unfold action_toggle_fixed_columns. rewrite Hb. simpl.
      destruct (Z.eqb_spec (fixed_columns s) 0); [contradiction | reflexivity].
    + unfold action_toggle_fixed_columns. rewrite Hb. simpl. rewrite Hb. exact Hb.
Qed.

Lemma toggle_fixed_columns_twice_witness :
  fixed_columns (action_toggle_fixed_columns (action_toggle_fixed_columns
     (action_toggle_fixed_columns (__init__ 2 true cell_cursor)))) =
  fixed_columns (action_toggle_fixed_columns (__init__ 2 true cell_cursor)) /\
  (fixed_columns (action_toggle_fixed_columns reassigned_fixed_columns) = 0 /\
   fixed_columns (action_toggle_fixed_columns
                    (action_toggle_fixed_columns reassigned_fixed_columns)) = 2 /\
   fixed_columns (action_toggle_fixed_columns
                    (action_toggle_fixed_columns reassigned_fixed_columns)) <>
     fixed_columns reassigned_fixed_columns /\
   _fixed_columns_bak (action_toggle_fixed_columns
                         (action_toggle_fixed_columns reassigned_fixed_columns)) = Some 2).
Proof.
  split.
  - apply (proj1 (toggle_fixed_columns_twice
                    (action_toggle_fixed_columns (__init__ 2 true cell_cursor)))).
    right; left; reflexivity.
  - apply (proj2 (toggle_fixed_columns_twice reassigned_fixed_columns) 2).
    + reflexivity.
    + vm_compute. discriminate.
    + vm_compute. discriminate.
Defined.

(** ** Moving the cursor down and up *)

Lemma clamp_within (v lo hi : Z) : lo <= v <= hi -> DataTable.clamp v lo hi = v.
Proof.
  intros H. unfold DataTable.clamp.
  destruct (Z.ltb_spec hi lo); [lia|].
  destruct (Z.ltb_spec v lo); [lia|].
  destruct (Z.ltb_spec hi v); [lia|reflexivity].
Qed.

Lemma is_valid_coordinate_bounds (s : State) (c : Coordinate) :
  DataTable.is_valid_coordinate s c = true ->
  0 <= row c < DataTable.row_count s /\
  0 <= column c < Z.of_nat (length (columns s)).
Proof.
  unfold DataTable.is_valid_coordinate.
  rewrite !andb_true_iff, !Z.leb_le, !Z.ltb_lt. lia.
Qed.

(** C4: with the cursor on the last row and vertical escape enabled,
    move-down leaves the cursor coordinate (and the rows) as they were and
    makes exactly one call to the host, [focus_next]. *)
Theorem action_cursor_down_last_row_escapes (s : State) :
  0 < DataTable.row_count s ->
  row (cursor_coordinate s) = DataTable.row_count s - 1 ->
  cursor_vertical_escape s = true ->
  cursor_coordinate (action_cursor_down s) = cursor_coordinate s /\
  rows (action_cursor_down s) = rows s /\
  trace (action_cursor_down s) = trace s ++ [FocusNext] /\
  length (filter (fun e => is_focus_transfer e = true) (trace (action_cursor_down s))) =
    S (length (filter (fun e => is_focus_transfer e = true) (trace s))).
Proof.
  intros _ Hrow Hesc.
  destruct s as [rd ve bak fc cols rws cbs cur sc ct hov uc ks ec tr].
  unfold action_cursor_down, DataTable._set_hover_cursor, DataTable.focus_next,
    DataTable.row_count in *; simpl in *.
  subst ve. rewrite Hrow, Z.eqb_refl. simpl.
  repeat split; try reflexivity.
  rewrite filter_app, length_app. simpl. lia.
Qed.

Lemma action_cursor_down_last_row_escapes_witness :
  cursor_coordinate (action_cursor_down (at_row 2 three_rows)) = mkCoordinate 2 0 /\
  trace (action_cursor_down (at_row 2 three_rows)) = trace (at_row 2 three_rows) ++ [FocusNext].
Proof.
  destruct (action_cursor_down_last_row_escapes (at_row 2 three_rows))
    as (Hc & _ & Ht & _); [reflexivity | reflexivity | reflexivity |].
  split; [rewrite Hc; reflexivity | exact Ht].
Defined.

(** C9: with vertical escape disabled, the cursor shown and a cell or row
    cursor, move-down from the last row puts the cursor on row 0 of the
    same column, and from any other row moves it down by exactly one row;
    no focus transfer is requested. *)
Theorem action_cursor_down_wraps_or_advances (s : State) :
  cursor_vertical_escape s = false ->
  show_cursor s = true ->
  addresses_rows (cursor_type s) = true ->
  DataTable.is_valid_coordinate s (cursor_coordinate s) = true ->
  (row (cursor_coordinate s) = DataTable.row_count s - 1 ->
   cursor_coordinate (action_cursor_down s) = mkCoordinate 0 (column (cursor_coordinate s))) /\
  (row (cursor_coordinate s) <> DataTable.row_count s - 1 ->
   cursor_coordinate (action_cursor_down s) =
     mkCoordinate (row (cursor_coordinate s) + 1) (column (cursor_coordinate s))) /\
  trace (action_cursor_down s) = trace s.
Proof.
  intros Hesc Hshow Hkind Hvalid.
  apply is_valid_coordinate_bounds in Hvalid.
  destruct s as [rd ve bak fc cols rws cbs [r c] sc ct hov uc ks ec tr].
  unfold action_cursor_down, DataTable._set_hover_cursor, DataTable.focus_next,
    DataTable.set_cursor_coordinate, DataTable._clamp_cursor_coordinate,
    DataTable.row_count in *; simpl in *.
  subst ve sc. rewrite Hkind, andb_false_r. simpl.
  destruct (Z.eqb_spec r (Z.of_nat (length rws) - 1)) as [E|E]; simpl;
    (split; [intros E'|split; [intros E'|reflexivity]]); try congruence; try lia.
  - rewrite !clamp_within by lia. reflexivity.
  - unfold down; simpl. rewrite !clamp_within by lia. reflexivity.
Qed.

Lemma action_cursor_down_wraps_or_advances_witness :
  cursor_coordinate
    (action_cursor_down (at_row 2 (set_cursor_vertical_escape false three_rows))) =
  mkCoordinate 0 0.
Proof.
  destruct (action_cursor_down_wraps_or_advances
              (at_row 2 (set_cursor_vertical_escape false three_rows)))
    as (Hwrap & _ & _); [reflexivity | reflexivity | reflexivity | reflexivity |].
  rewrite Hwrap; reflexivity.
Defined.

(** C10, as stated, fails: an empty grid need not have its cursor on
    row 0.  On a new table, move-up made with vertical escape disabled
    assigns row [row_count - 1 = -1]; once vertical escape is enabled
    again, move-down transfers focus to the next sibling and move-up
    transfers none. *)
Lemma empty_grid_escape_reversed :
  DataTable.row_count empty_cursor_below_zero = 0 /\
  cursor_vertical_escape empty_cursor_below_zero = true /\
  row (cursor_coordinate empty_cursor_below_zero) = -1 /\
  trace (action_cursor_up empty_cursor_below_zero) = trace empty_cursor_below_zero /\
  trace (action_cursor_down empty_cursor_below_zero) =
    trace empty_cursor_below_zero ++ [FocusNext].
Proof. repeat split; vm_compute; reflexivity. Qed.

(** C10, amended: on an empty grid with vertical escape enabled the two
    boundary tests read the cursor row.  Move-up transfers focus to the
    previous sibling exactly when the cursor row is 0, move-down
    transfers focus to the next sibling exactly when the cursor row is
    [row_count - 1 = -1].  So with the cursor on row 0 move-up transfers
    and move-down does not, and with the cursor on row -1 move-down
    transfers and move-up does not; in both cases the transferring
    command leaves the cursor where it was. *)
Theorem empty_grid_escape_asymmetry (s : State) :
  DataTable.row_count s = 0 ->
  cursor_vertical_escape s = true ->
  (exists later_up later_down,
     trace (action_cursor_up s) = trace s ++ later_up /\
     trace (action_cursor_down s) = trace s ++ later_down /\
     focus_requests later_up =
       (if row (cursor_coordinate s) =? 0 then [FocusPrevious] else []) /\
     focus_requests later_down =
       (if row (cursor_coordinate s) =? -1 then [FocusNext] else [])) /\
  (row (cursor_coordinate s) = 0 ->
   trace (action_cursor_up s) = trace s ++ [FocusPrevious] /\
   cursor_coordinate (action_cursor_up s) = cursor_coordinate s /\
   exists later, trace (action_cursor_down s) = trace s ++ later /\
                 forall e, In e later -> is_focus_transfer e = false) /\
  (row (cursor_coordinate s) = -1 ->
   trace (action_cursor_down s) = trace s ++ [FocusNext] /\
   cursor_coordinate (action_cursor_down s) = cursor_coordinate s /\
   exists later, trace (action_cursor_up s) = trace s ++ later /\
                 forall e, In e later -> is_focus_transfer e = false).
Proof.
  intros Hcount Hesc.
  destruct s as [rd ve bak fc cols rws cbs [r c] sc ct hov uc ks ec tr].
  unfold action_cursor_up, action_cursor_down, DataTable._set_hover_cursor,
    DataTable.focus_next, DataTable.focus_previous, DataTable.action_cursor_down,
    DataTable.action_cursor_up, DataTable.set_cursor_coordinate,
    DataTable.row_count in *; simpl in *.
  subst ve. rewrite Hcount. change (0 - 1) with (-1). rewrite !andb_true_r.
  split; [|split].
  - destruct (Z.eqb_spec r 0), (Z.eqb_spec r (-1)); try lia; simpl;
      destruct (sc && addresses_rows ct); simpl;
      eexists _, _;
      (split; [first [reflexivity | symmetry; apply app_nil_r]|]);
      (split; [first [reflexivity | symmetry; apply app_nil_r]|]);
      split; reflexivity.
  - intros ->. simpl. split; [reflexivity|]. split; [reflexivity|].
    destruct (sc && addresses_rows ct); simpl.
    + exists []. rewrite app_nil_r. split; [reflexivity | intros e []].
    + exists [ScrollDown]. split; [reflexivity|]. intros e [<-|[]]. reflexivity.
  - intros ->. simpl. split; [reflexivity|]. split; [reflexivity|].
    destruct (sc && addresses_rows ct); simpl.
    + exists []. rewrite app_nil_r. split; [reflexivity | intros e []].
    + exists [ScrollUp]. split; [reflexivity|]. intros e [<-|[]]. reflexivity.
Qed.

Lemma empty_grid_escape_asymmetry_witness :
  (trace (action_cursor_up selectable) = trace selectable ++ [FocusPrevious] /\
   cursor_coordinate (action_cursor_up selectable) = cursor_coordinate selectable /\
   exists later, trace (action_cursor_down selectable) = trace selectable ++ later /\
                 forall e, In e later -> is_focus_transfer e = false) /\
  (trace (action_cursor_down empty_cursor_below_zero) =
     trace empty_cursor_below_zero ++ [FocusNext] /\
   cursor_coordinate (action_cursor_down empty_cursor_below_zero) =
     cursor_coordinate empty_cursor_below_zero /\
   exists later, trace (action_cursor_up empty_cursor_below_zero) =
                   trace empty_cursor_below_zero ++ later /\
                 forall e, In e later -> is_focus_transfer e = false).
Proof.
  assert (Hrows : DataTable.row_count selectable = 0) by (vm_compute; reflexivity).
  assert (Hesc : cursor_vertical_escape selectable = true) by (vm_compute; reflexivity).
  assert (Hrows' : DataTable.row_count empty_cursor_below_zero = 0)
    by (vm_compute; reflexivity).
  assert (Hesc' : cursor_vertical_escape empty_cursor_below_zero = true)
    by (vm_compute; reflexivity).
  split.
  - apply (proj1 (proj2 (empty_grid_escape_asymmetry selectable Hrows Hesc))).
    vm_compute. reflexivity.
  - apply (proj2 (proj2 (empty_grid_escape_asymmetry empty_cursor_below_zero Hrows' Hesc'))).
    vm_compute. reflexivity.
Defined.

(** ** The interactive commands and failed lookups *)

Lemma coordinate_to_cell_key_raise (s s' : State) (c : Coordinate) (e : Exn) :
  DataTable.coordinate_to_cell_key s c = Raise s' e -> s' = s /\ e = CellDoesNotExist.
Proof.
  unfold DataTable.coordinate_to_cell_key.
  destruct (DataTable.is_valid_coordinate s c).
  - destruct (rows s !! Z.to_nat (row c)) as [[rk r]|];
      [destruct (columns s !! Z.to_nat (column c))|]; intros H; inversion H; auto.
  - intros H; inversion H; auto.
Qed.

Lemma coordinate_to_cell_key_ok (s s' : State) (c : Coordinate) (k : CellKey) :
  DataTable.coordinate_to_cell_key s c = Ok s' k ->
  s' = s /\ DataTable.is_valid_coordinate s c = true /\
  exists r col, rows s !! Z.to_nat (row c) = Some (fst k, r) /\
                columns s !! Z.to_nat (column c) = Some col /\ snd k = col_key col.
Proof.
  unfold DataTable.coordinate_to_cell_key.
  destruct (DataTable.is_valid_coordinate s c); [|discriminate].
  destruct (rows s !! Z.to_nat (row c)) as [[rk r]|]; [|discriminate].
  destruct (columns s !! Z.to_nat (column c)) as [col|]; [|discriminate].
  intros H; inversion H; subst. simpl. eauto 8.
Qed.

Lemma get_cell_raise (s s' : State) (rk ck : Key) (e : Exn) :
  DataTable.get_cell s rk ck = Raise s' e -> s' = s /\ e = CellDoesNotExist.
Proof.
  unfold DataTable.get_cell.
  destruct (lookup_key rk (rows s)) as [r|];
    [destruct (lookup_key ck (row_cells r))|]; intros H; inversion H; auto.
Qed.

Lemma get_cell_ok (s s' : State) (rk ck : Key) (v : Cell) :
  DataTable.get_cell s rk ck = Ok s' v ->
  s' = s /\ exists r, lookup_key rk (rows s) = Some r /\ lookup_key ck (row_cells r) = Some v.
Proof.
  unfold DataTable.get_cell.
  destruct (lookup_key rk (rows s)) as [r|]; [|discriminate].
  destruct (lookup_key ck (row_cells r)) as [v'|] eqn:E; [|discriminate].
  intros H; inversion H; subst. eauto.
Qed.

(** C7: when the lookup derived from the cursor fails with
    [CellDoesNotExist] (no cell under the cursor; for the toggle also no
    checkbox cell in the cursor's row), remove-current-row and
    toggle-current-row return normally and leave the table as it was. *)
Theorem cursor_lookup_failure_absorbed (s : State) :
  (raised (DataTable.coordinate_to_cell_key s (cursor_coordinate s)) = Some CellDoesNotExist ->
   action_remove_row s = Ok s tt /\ action_toggle_row s = Ok s tt) /\
  (forall row_key column_key,
     DataTable.coordinate_to_cell_key s (cursor_coordinate s) = Ok s (row_key, column_key) ->
     raised (DataTable.get_cell s row_key (Named "checkbox"%string)) = Some CellDoesNotExist ->
     action_toggle_row s = Ok s tt).
Proof.
  split.
  - intros H. unfold action_remove_row, action_toggle_row.
    destruct (DataTable.coordinate_to_cell_key s (cursor_coordinate s)) as [s' k|s' e] eqn:E;
      [discriminate|].
    apply coordinate_to_cell_key_raise in E as [-> ->]. split; reflexivity.
  - intros rk ck Hkey H. unfold action_toggle_row. rewrite Hkey. simpl.
    destruct (DataTable.get_cell s rk (Named "checkbox"%string)) as [s' v|s' e] eqn:E;
      [discriminate|].
    apply get_cell_raise in E as [-> ->]. reflexivity.
Qed.

Lemma cursor_lookup_failure_absorbed_witness :
  (action_remove_row selectable = Ok selectable tt /\
   action_toggle_row selectable = Ok selectable tt) /\
  action_toggle_row plain_one_row = Ok plain_one_row tt.
Proof.
  split.
  - apply (proj1 (cursor_lookup_failure_absorbed selectable)). vm_compute. reflexivity.
  - apply (proj2 (cursor_lookup_failure_absorbed plain_one_row)
             (Named "r0"%string) (Named "n"%string)); vm_compute; reflexivity.
Defined.

(** ** Keys *)

Lemma Key_eqb_eq (a b : Key) : Key_eqb a b = true <-> a = b.
Proof.
  destruct a as [x|m], b as [y|n]; unfold Key_eqb; split; intros H;
    try discriminate; try (inversion H; fail).
  - apply String.eqb_eq in H. congruence.
  - inversion H. apply String.eqb_refl.
  - apply Nat.eqb_eq in H. congruence.
  - inversion H. apply Nat.eqb_refl.
Qed.

Lemma Key_eqb_refl (a : Key) : Key_eqb a a = true.
Proof. apply Key_eqb_eq. reflexivity. Qed.

Lemma Key_eqb_neq (a b : Key) : Key_eqb a b = false <-> a <> b.
Proof.
  split.
  - intros H E. apply Key_eqb_eq in E. congruence.
  - intros H. destruct (Key_eqb a b) eqn:E; [|reflexivity].
    apply Key_eqb_eq in E. contradiction.
Qed.

(** ** Adding columns *)

Lemma make_key_columns (s : State) (key : option string) :
  columns (fst (DataTable.make_key s key)) = columns s /\
  rows (fst (DataTable.make_key s key)) = rows s /\
  trace (fst (DataTable.make_key s key)) = trace s /\
  checkboxes (fst (DataTable.make_key s key)) = checkboxes s /\
  row_disable (fst (DataTable.make_key s key)) = row_disable s.
Proof. destruct key; simpl; repeat split; reflexivity. Qed.

(** What the inherited [add_column] does to the column list: one column
    appended under a key not yet present, or nothing. *)
Lemma base_add_column_columns (s : State) label width key default :
  let r := DataTable.add_column s label width key default in
  row_disable (state_of r) = row_disable s /\
  (columns (state_of r) = columns s \/
   exists k, r = Ok (state_of r) k /\ has_column k (columns s) = false /\
             columns (state_of r) = columns s ++ [mkColumn k label width]).
Proof.
  unfold DataTable.add_column.
  destruct (DataTable.make_key s key) as [s1 k] eqn:Hk.
  pose proof (make_key_columns s key) as (Hc & _ & _ & _ & Hd).
  rewrite Hk in Hc, Hd. simpl in Hc, Hd.
  destruct (has_column k (columns s1)) eqn:Hhas; simpl.
  - split; [exact Hd | left; exact Hc].
  - split; [exact Hd | right]. exists k. rewrite <- Hc. repeat split; auto.
Qed.

Lemma add_column_nonempty (s : State) label width key default :
  columns s <> [] ->
  add_column s label width key default = DataTable.add_column s label width key default.
Proof.
  intros H. unfold add_column.
  destruct (columns s) as [|c cs]; [contradiction|].
  simpl. rewrite andb_false_r. reflexivity.
Qed.

Lemma has_column_filter (k : Key) (cols : list Column) :
  has_column k cols = false ->
  filter (fun c => Key_eqb (col_key c) k = true) cols = [].
Proof.
  induction cols as [|c cs IH]; simpl; [reflexivity|].
  intros H. apply orb_false_iff in H as [H1 H2].
  rewrite filter_cons. destruct (decide (Key_eqb (col_key c) k = true)); [congruence|].
  apply IH, H2.
Qed.

Lemma base_add_checkbox_column (s : State) :
  columns s = [] ->
  exists s', DataTable.add_column s (Some ""%string) (Some 1) (Some "checkbox"%string) NoCell
             = Ok s' (Named "checkbox"%string) /\
             columns s' = [checkbox_column].
Proof.
  intros Hcols. unfold DataTable.add_column. simpl. rewrite Hcols. simpl.
  eexists. split; reflexivity.
Qed.

(** The later calls of a sequence: the checkbox column stays first and
    single, and every call is the inherited one. *)
Lemma add_columns_keep_checkbox (calls : list AddColumnCall) : forall (s : State) (others : list Column),
  columns s = checkbox_column :: others ->
  filter (fun c => is_checkbox_column c = true) others = [] ->
  add_columns s calls = base_add_columns s calls /\
  exists others',
    columns (add_columns s calls) = checkbox_column :: others' /\
    filter (fun c => is_checkbox_column c = true) others' = [] /\
    (length others' <= length others + length calls)%nat.
Proof.
  induction calls as [|c rest IH]; intros s others Hcols Hsingle; simpl.
  - split; [reflexivity|]. exists others. repeat split; auto. lia.
  - rewrite add_column_nonempty by (rewrite Hcols; discriminate).
    pose proof (base_add_column_columns s (ac_label c) (ac_width c) (ac_key c) (ac_default c))
      as (_ & [Hsame | (k & _ & Hfresh & Happ)]).
    + destruct (IH _ others (eq_trans Hsame Hcols) Hsingle) as (Heq & o' & H1 & H2 & H3).
      split; [exact Heq|]. exists o'. repeat split; auto. lia.
    + rewrite Hcols in Happ, Hfresh. simpl in Happ, Hfresh.
      apply orb_false_iff in Hfresh as [Hk _].
      destruct (IH _ (others ++ [mkColumn k (ac_label c) (ac_width c)]) Happ)
        as (Heq & o' & H1 & H2 & H3).
      { rewrite filter_app, Hsingle. simpl. rewrite filter_cons.
        unfold is_checkbox_column at 1. simpl.
        destruct (decide (Key_eqb k (Named "checkbox"%string) = true)) as [E|E]; [|reflexivity].
        apply Key_eqb_eq in E. subst k. simpl in Hk. discriminate. }
      split; [exact Heq|]. exists o'. repeat split; auto.
      rewrite length_app in H3. simpl in H3. lia.
Qed.

(** C6: with row selection enabled and no column yet, [add_column] first
    inserts the checkbox column (key "checkbox", empty label, width 1) at
    position 0 and then the requested column after it; the insertion
    happens once: every later [add_column] call is the inherited one, and
    the checkbox column stays the first and the only one of its key. *)
Theorem add_column_inserts_checkbox_once (s : State) label width key default
    (later : list AddColumnCall) :
  row_disable s = true ->
  columns s = [] ->
  let s1 := state_of (add_column s label width key default) in
  let s2 := add_columns s1 later in
  (key <> Some "checkbox"%string ->
   exists k, add_column s label width key default = Ok s1 k /\
             columns s1 = [checkbox_column; mkColumn k label width]) /\
  columns s1 !! 0%nat = Some checkbox_column /\
  s2 = base_add_columns s1 later /\
  columns s2 !! 0%nat = Some checkbox_column /\
  filter (fun c => is_checkbox_column c = true) (columns s2) = [checkbox_column] /\
  (length (columns s2) <= 2 + length later)%nat.
Proof.
  intros Hrd Hcols s1 s2.
  assert (Hfirst : exists others, columns s1 = checkbox_column :: others /\
            filter (fun c => is_checkbox_column c = true) others = [] /\
            (length others <= 1)%nat /\
            (key <> Some "checkbox"%string ->
             exists k, add_column s label width key default = Ok s1 k /\
                       others = [mkColumn k label width])).
  { subst s1. unfold add_column. rewrite Hrd, Hcols. simpl.
    destruct (base_add_checkbox_column s Hcols) as (s' & -> & Hs'). simpl.
    unfold DataTable.add_column.
    destruct (DataTable.make_key s' key) as [s'' k] eqn:Hk.
    pose proof (make_key_columns s' key) as (Hc & _). rewrite Hk in Hc. simpl in Hc.
    rewrite Hc, Hs'. simpl. rewrite orb_false_r.
    destruct (Key_eqb (Named "checkbox"%string) k) eqn:E; simpl.
    - exists []. rewrite Hc, Hs'. repeat split; auto.
      intros Hne. exfalso. apply Key_eqb_eq in E. subst k.
      destruct key as [x|]; simpl in Hk; inversion Hk; subst. congruence.
    - exists [mkColumn k label width].
      repeat split; auto.
      + rewrite filter_cons. unfold is_checkbox_column. simpl.
        destruct (decide (Key_eqb k (Named "checkbox"%string) = true)) as [E'|E']; [|reflexivity].
        apply Key_eqb_eq in E'. subst k. rewrite Key_eqb_refl in E. discriminate.
      + intros _. exists k. split; reflexivity. }
  destruct Hfirst as (others & H1 & Hsingle & Hlen & Hreq).
  destruct (add_columns_keep_checkbox later s1 others H1 Hsingle) as (Heq & o' & H2 & H3 & H4).
  fold s2 in Heq, H2, H4.
  split.
  { intros Hne. destruct (Hreq Hne) as (k & Hok & ->). exists k. split; [exact Hok | exact H1]. }
  split; [rewrite H1; reflexivity|].
  split; [exact Heq|].
  split; [rewrite H2; reflexivity|].
  split.
  - rewrite H2, filter_cons. unfold is_checkbox_column at 1. simpl.
    rewrite H3. reflexivity.
  - rewrite H2. simpl. lia.
Qed.

Lemma add_column_inserts_checkbox_once_witness :
  filter (fun c => is_checkbox_column c = true)
    (columns
       (add_columns
          (state_of (add_column (set_row_disable true (__init__ 1 true row_cursor))
                       (Some "Key"%string) None (Some "k"%string) NoCell))
          [mkAddColumnCall (Some "Value"%string) None (Some "v"%string) NoCell])) =
  [checkbox_column].
Proof.
  assert (Hmode : row_disable (set_row_disable true (__init__ 1 true row_cursor)) = true)
    by (vm_compute; reflexivity).
  assert (Hnone : columns (set_row_disable true (__init__ 1 true row_cursor)) = [])
    by (vm_compute; reflexivity).
  destruct (add_column_inserts_checkbox_once
              (set_row_disable true (__init__ 1 true row_cursor))
              (Some "Key"%string) None (Some "k"%string) NoCell
              [mkAddColumnCall (Some "Value"%string) None (Some "v"%string) NoCell]
              Hmode Hnone) as (_ & _ & _ & _ & Hone & _).
  exact Hone.
Defined.

(** ** Adding and removing rows *)

(** What the inherited [add_row] does: nothing but the row list, the
    cursor and the counters change, and the row list either stays or
    gains the new row at its end. *)
Lemma base_add_row_effect (s : State) cells height key label :
  let r := DataTable.add_row s cells height key label in
  trace (state_of r) = trace s /\
  checkboxes (state_of r) = checkboxes s /\
  row_disable (state_of r) = row_disable s /\
  columns (state_of r) = columns s /\
  ((raised r <> None /\ rows (state_of r) = rows s) \/
   exists k, r = Ok (state_of r) k /\ has_key k (rows s) = false /\
             (length cells <= length (columns s))%nat /\
             rows (state_of r) =
               rows s ++ [(k, mkRow height label (zip_longest (columns s) cells))]).
Proof.
  unfold DataTable.add_row.
  destruct (DataTable.make_key s key) as [s1 k] eqn:Hk.
  pose proof (make_key_columns s key) as (Hc & Hr & Ht & Hb & Hd).
  rewrite Hk in Hc, Hr, Ht, Hb, Hd. simpl in Hc, Hr, Ht, Hb, Hd.
  destruct (has_key k (rows s1)) eqn:Hhas; simpl.
  { repeat split; auto; try (left; split; [discriminate | exact Hr]). }
  destruct (Nat.ltb_spec (length (columns s1)) (length cells)) as [Hlt|Hle]; simpl.
  { repeat split; auto; try (left; split; [discriminate | exact Hr]). }
  repeat split; auto; try (simpl; congruence).
  right. exists k. rewrite <- Hr, <- Hc. repeat split; auto.
Qed.

Lemma base_remove_row_effect (s : State) (row_key : Key) :
  let r := DataTable.remove_row s row_key in
  trace (state_of r) = trace s /\
  checkboxes (state_of r) = checkboxes s /\
  columns (state_of r) = columns s /\
  ((r = Raise s RowDoesNotExist /\ has_key row_key (rows s) = false) \/
   (r = Ok (state_of r) tt /\ has_key row_key (rows s) = true /\
    rows (state_of r) = delete_key row_key (rows s))).
Proof.
  unfold DataTable.remove_row.
  destruct (has_key row_key (rows s)) eqn:Hhas; simpl.
  - repeat split; auto.
  - repeat split; auto.
Qed.

Lemma column_width_refresh_trace (s : State) :
  rows (_column_width_refresh s) = rows s /\
  checkboxes (_column_width_refresh s) = checkboxes s /\
  columns (_column_width_refresh s) = columns s /\
  trace (_column_width_refresh s) =
    trace s ++ match rows s with
               | [] => []
               | _ :: _ => [UpdateColumnWidths (first_row_cell_keys s)]
               end.
Proof.
  unfold _column_width_refresh, first_row_cell_keys, DataTable.row_count.
  destruct (rows s) as [|[row_zero first] rest] eqn:Hrows; simpl.
  - rewrite app_nil_r. auto.
  - rewrite Hrows. repeat split; auto.
    rewrite map_map. reflexivity.
Qed.

(** C8: [add_row] and [remove_row] post their notification first and
    apply the inherited mutation to the state in which the message is
    already queued and the rows are still the old ones; so the message is
    in the queue whatever the mutation then does, and precedes every other
    call the method makes. *)
Theorem notification_posted_before_mutation (s : State) :
  (forall cells height key label explicit_by_user sender,
     exists s_posted cells',
       rows s_posted = rows s /\
       trace s_posted = trace s ++ [Posted (RowsAdded explicit_by_user (attached_sender sender))] /\
       add_row s cells height key label explicit_by_user sender =
         DataTable.add_row s_posted cells' height key label /\
       trace (state_of (add_row s cells height key label explicit_by_user sender)) =
         trace s ++ [Posted (RowsAdded explicit_by_user (attached_sender sender))]) /\
  (forall row_key,
     exists s_posted,
       rows s_posted = rows s /\
       trace s_posted = trace s ++ [Posted (RowsRemoved true)] /\
       remove_row s row_key =
         (do (s2, rv) <- DataTable.remove_row s_posted row_key;
          Ok (_column_width_refresh s2) rv) /\
       exists later,
         trace (state_of (remove_row s row_key)) =
           trace s ++ Posted (RowsRemoved true) :: later).
Proof.
  split.
  - intros cells height key label explicit sender.
    unfold add_row.
    destruct (row_disable s); simpl.
    + eexists _, _. split; [|split; [|split; [reflexivity|]]].
      * reflexivity.
      * reflexivity.
      * match goal with |- trace (state_of (DataTable.add_row ?s' ?c ?h ?k ?l)) = _ =>
          pose proof (base_add_row_effect s' c h k l) as (Ht & _) end.
        rewrite Ht. reflexivity.
    + eexists _, _. split; [|split; [|split; [reflexivity|]]].
      * reflexivity.
      * reflexivity.
      * match goal with |- trace (state_of (DataTable.add_row ?s' ?c ?h ?k ?l)) = _ =>
          pose proof (base_add_row_effect s' c h k l) as (Ht & _) end.
        rewrite Ht. reflexivity.
  - intros row_key. unfold remove_row.
    exists (DataTable.post_message s (RowsRemoved true)).
    split; [reflexivity|]. split; [reflexivity|]. split; [reflexivity|].
    pose proof (base_remove_row_effect (DataTable.post_message s (RowsRemoved true)) row_key)
      as (Ht & _ & _ & [(Hr & _)|(Hr & _ & _)]).
    + rewrite Hr. simpl. exists []. reflexivity.
    + rewrite Hr. simpl in *.
      pose proof (column_width_refresh_trace
                    (state_of (DataTable.remove_row (DataTable.post_message s (RowsRemoved true)) row_key)))
        as (_ & _ & _ & Hw).
      rewrite Hw, Ht. simpl. rewrite <- app_assoc. simpl. eexists. reflexivity.
Qed.

(** One [add_row] call in row-selection mode: a new [Checkbox] object,
    created checked, and at most one new row, which starts with it. *)
Lemma add_row_selection_effect (s : State) cells height key label explicit_by_user sender :
  row_disable s = true ->
  let r := add_row s cells height key label explicit_by_user sender in
  row_disable (state_of r) = true /\
  columns (state_of r) = columns s /\
  checkboxes (state_of r) = checkboxes s ++ [true] /\
  ((raised r <> None /\ rows (state_of r) = rows s) \/
   exists k c0 rest,
     r = Ok (state_of r) k /\
     columns s !! 0%nat = Some c0 /\
     rows (state_of r) =
       rows s ++ [(k, mkRow height label
                        ((col_key c0, CheckboxRef (length (checkboxes s))) :: rest))]).
Proof.
  intros Hrd. unfold add_row. rewrite Hrd. simpl.
  match goal with |- context [DataTable.add_row ?s' ?c ?h ?k ?l] =>
    pose proof (base_add_row_effect s' c h k l) as (_ & Hb & Hd & Hc & Hrows) end.
  simpl in Hb, Hd, Hc, Hrows.
  split; [congruence|]. split; [exact Hc|]. split; [exact Hb|].
  destruct Hrows as [Hfail | (k & Hok & _ & Hlen & Hnew)]; [left; exact Hfail|].
  right. destruct (columns s) as [|c0 cs] eqn:Hcols; [simpl in Hlen; lia|].
  exists k, c0, (zip_longest cs cells). split; [exact Hok|]. split; [reflexivity|].
  exact Hnew.
Qed.

Lemma add_rows_selection (calls : list AddRowCall) : forall (s : State),
  row_disable s = true ->
  (exists more, checkboxes (add_rows s calls) = checkboxes s ++ more) /\
  forall k r, In (k, r) (rows (add_rows s calls)) ->
    In (k, r) (rows s) \/
    exists l ck rest,
      row_cells r = (ck, CheckboxRef l) :: rest /\
      (length (checkboxes s) <= l)%nat /\
      checkboxes (add_rows s calls) !! l = Some true.
Proof.
  induction calls as [|c rest IH]; intros s Hrd; simpl.
  - split; [exists []; rewrite app_nil_r; reflexivity | auto].
  - pose proof (add_row_selection_effect s (ar_cells c) (ar_height c) (ar_key c)
                  (ar_label c) (ar_explicit_by_user c) (ar_sender c) Hrd)
      as (Hrd' & _ & Hboxes & Hrows).
    simpl in Hrd', Hboxes, Hrows.
    set (s1 := state_of (add_row s (ar_cells c) (ar_height c) (ar_key c)
                           (ar_label c) (ar_explicit_by_user c) (ar_sender c))) in *.
    destruct (IH s1 Hrd') as ((more & Hmore) & Hin).
    split.
    { exists ([true] ++ more). rewrite Hmore, Hboxes, <- app_assoc. reflexivity. }
    intros k r Hkr. destruct (Hin k r Hkr) as [Hold | (l & ck & tl & Hcells & Hl & Hchecked)].
    + destruct Hrows as [(_ & Hsame) | (k' & c0 & tl & _ & _ & Hnew)].
      * left. rewrite <- Hsame. exact Hold.
      * rewrite Hnew in Hold. apply in_app_or in Hold as [Hold | [Hold | []]].
        -- left. exact Hold.
        -- right. inversion Hold; subst k r.
           exists (length (checkboxes s)), (col_key c0), tl.
           split; [reflexivity|]. split; [lia|].
           rewrite Hmore, Hboxes, <- app_assoc.
           rewrite lookup_app_r by lia. rewrite Nat.sub_diag. reflexivity.
    + right. exists l, ck, tl. split; [exact Hcells|]. split; [|exact Hchecked].
      rewrite Hboxes, length_app in Hl. simpl in Hl. lia.
Qed.

(** C1, as stated, fails: the checkbox that [add_row] puts in front of
    the cells ("a", "b") is created checked, not unchecked. *)
Lemma add_row_checkbox_not_unchecked :
  row_disable selectable = true /\
  rows (state_of (add_row selectable [Str "a"; Str "b"] (Some 1) (Some "r0"%string)
                    None true None)) =
    [(Named "r0"%string,
      mkRow (Some 1) None
        [(Named "checkbox"%string, CheckboxRef 0%nat);
         (Named "k"%string, Str "a"); (Named "v"%string, Str "b")])] /\
  checkboxes (state_of (add_row selectable [Str "a"; Str "b"] (Some 1) (Some "r0"%string)
                          None true None)) !! 0%nat = Some true /\
  checkboxes (state_of (add_row selectable [Str "a"; Str "b"] (Some 1) (Some "r0"%string)
                          None true None)) !! 0%nat <> Some false.
Proof. repeat split; vm_compute; try reflexivity. discriminate. Qed.

(** C1, amended: for every sequence of [add_row] calls on a grid with
    row selection enabled, every row the calls add starts with a
    reference to a [Checkbox] object created by the call, whose checked
    state is true. *)
Theorem add_row_prepends_checked_checkbox (s : State) (calls : list AddRowCall) :
  row_disable s = true ->
  forall k r, In (k, r) (rows (add_rows s calls)) ->
    In (k, r) (rows s) \/
    exists l ck rest,
      row_cells r = (ck, CheckboxRef l) :: rest /\
      (length (checkboxes s) <= l)%nat /\
      checkboxes (add_rows s calls) !! l = Some true.
Proof. intros Hrd. apply (add_rows_selection calls s Hrd). Qed.

Lemma add_row_prepends_checked_checkbox_witness :
  In (Named "r1"%string,
      mkRow (Some 1) None
        [(Named "checkbox"%string, CheckboxRef 1%nat);
         (Named "k"%string, Str "c"); (Named "v"%string, Str "d")])
     (rows selectable) \/
  exists l ck rest,
    [(Named "checkbox"%string, CheckboxRef 1%nat);
     (Named "k"%string, Str "c"); (Named "v"%string, Str "d")] =
      (ck, CheckboxRef l) :: rest /\
    (length (checkboxes selectable) <= l)%nat /\
    checkboxes (add_rows selectable two_row_calls) !! l = Some true.
Proof.
  assert (Hmode : row_disable selectable = true) by (vm_compute; reflexivity).
  apply (add_row_prepends_checked_checkbox selectable two_row_calls Hmode
           (Named "r1"%string)
           (mkRow (Some 1) None
              [(Named "checkbox"%string, CheckboxRef 1%nat);
               (Named "k"%string, Str "c"); (Named "v"%string, Str "d")])).
  vm_compute. right; left; reflexivity.
Defined.

(** ** The column-width refresh *)

Lemma remeasured_app (a b : list Event) :
  remeasured (a ++ b) = remeasured a ++ remeasured b.
Proof.
  induction a as [|e a IH]; simpl; [reflexivity|].
  destruct e; simpl; rewrite IH; try reflexivity.
  rewrite app_assoc. reflexivity.
Qed.

Lemma column_width_refresh_remeasures (s : State) :
  exists later,
    trace (_column_width_refresh s) = trace s ++ later /\
    remeasured later = first_row_cell_keys s /\
    first_row_cell_keys (_column_width_refresh s) = first_row_cell_keys s.
Proof.
  pose proof (column_width_refresh_trace s) as (Hr & _ & _ & Ht).
  eexists. split; [exact Ht|]. split.
  - unfold first_row_cell_keys. destruct (rows s) as [|[k r] rest]; simpl.
    + reflexivity.
    + rewrite app_nil_r. reflexivity.
  - unfold first_row_cell_keys. rewrite Hr. reflexivity.
Qed.

Lemma add_row_trace (s : State) cells height key label explicit_by_user sender :
  trace (state_of (add_row s cells height key label explicit_by_user sender)) =
  trace s ++ [Posted (RowsAdded explicit_by_user (attached_sender sender))].
Proof.
  unfold add_row. destruct (row_disable s); simpl;
    match goal with |- trace (state_of (DataTable.add_row ?s' ?c ?h ?k ?l)) = _ =>
      pose proof (base_add_row_effect s' c h k l) as (Ht & _) end;
    rewrite Ht; reflexivity.
Qed.

Lemma add_each_row_trace (new_rows : list (list Cell)) : forall (s : State),
  exists later,
    trace (state_of (add_each_row s new_rows)) = trace s ++ later /\
    remeasured later = [].
Proof.
  induction new_rows as [|r rest IH]; intros s; simpl.
  - exists []. rewrite app_nil_r. split; reflexivity.
  - pose proof (add_row_trace s r (Some 1) None None false None) as Ht.
    destruct (add_row s r (Some 1) None None false None) as [s1 k|s1 e]; simpl in *.
    + destruct (IH s1) as (later & Hl & Hm).
      exists (Posted (RowsAdded false None) :: later).
      rewrite Hl, Ht, <- app_assoc. split; [reflexivity | exact Hm].
    + exists [Posted (RowsAdded false None)]. split; [exact Ht | reflexivity].
Qed.

Lemma clear_remeasures (s : State) (cols : bool) :
  rows (clear s cols) = [] /\
  trace (clear s cols) = trace s ++ [Posted (RowsRemoved false)].
Proof.
  unfold clear.
  match goal with |- context [_column_width_refresh ?s'] =>
    pose proof (column_width_refresh_trace s') as (Hr & _ & _ & Ht);
    assert (Hempty : rows s' = []) by (destruct cols; reflexivity) end.
  rewrite Hr, Ht, Hempty. rewrite app_nil_r.
  split; [reflexivity|]. destruct cols; reflexivity.
Qed.

(** C2, as stated, fails: after [remove_row] on a table of three rows the
    refresh hands over the cells of row "r0" only; the cell ("r1", "k") of
    the current row set is not re-measured. *)
Lemma column_width_refresh_skips_other_rows :
  raised (remove_row three_rows (Named "r2"%string)) = None /\
  In (Named "r1"%string, Named "k"%string)
     (all_cell_keys (state_of (remove_row three_rows (Named "r2"%string)))) /\
  ~ In (Named "r1"%string, Named "k"%string)
       (remeasured (trace (state_of (remove_row three_rows (Named "r2"%string))))).
Proof.
  split; [vm_compute; reflexivity|]. split.
  - vm_compute. right; right; right; right; left. reflexivity.
  - vm_compute. intros [H|[H|[H|[]]]]; discriminate H.
Qed.

(** C2, amended: after [remove_row], [clear] and [replace_all_rows] the
    column-width refresh runs, and the cells it hands over for
    re-measurement are exactly the cells of the first row of the current
    row set, one per column key of that row; nothing when no row is
    left. *)
Theorem column_width_refresh_measures_first_row (s : State) :
  (forall row_key s', remove_row s row_key = Ok s' tt ->
     exists later, trace s' = trace s ++ later /\
                   remeasured later = first_row_cell_keys s') /\
  (forall cols,
     exists later, trace (clear s cols) = trace s ++ later /\
                   remeasured later = first_row_cell_keys (clear s cols) /\
                   remeasured later = []) /\
  (forall new_rows s', replace_all_rows s new_rows = Ok s' tt ->
     exists later, trace s' = trace s ++ later /\
                   remeasured later = first_row_cell_keys s').
Proof.
  split; [|split].
  - intros row_key s' H. unfold remove_row in H.
    pose proof (base_remove_row_effect (DataTable.post_message s (RowsRemoved true)) row_key)
      as (Ht & _).
    destruct (DataTable.remove_row (DataTable.post_message s (RowsRemoved true)) row_key)
      as [s2 rv|s2 e]; simpl in H, Ht; [|discriminate].
    inversion H; subst s'.
    destruct (column_width_refresh_remeasures s2) as (later & Hl & Hm & Hf).
    exists (Posted (RowsRemoved true) :: later).
    rewrite Hl, Ht, <- app_assoc. simpl. rewrite Hf. auto.
  - intros cols. destruct (clear_remeasures s cols) as (Hr & Ht).
    exists [Posted (RowsRemoved false)]. split; [exact Ht|].
    unfold first_row_cell_keys. rewrite Hr. auto.
  - intros new_rows s' H. unfold replace_all_rows in H.
    destruct (clear_remeasures s false) as (_ & Hc).
    destruct (add_each_row_trace new_rows (clear s false)) as (mid & Hmid & Hmm).
    destruct (add_each_row (clear s false) new_rows) as [s2 rv|s2 e];
      cbn [bind state_of] in H, Hmid; [|discriminate].
    inversion H; subst s'.
    destruct (column_width_refresh_remeasures s2) as (later & Hl & Hm & Hf).
    exists ([Posted (RowsRemoved false)] ++ mid ++ later).
    rewrite Hl, Hmid, Hc, <- !app_assoc. split; [reflexivity|].
    rewrite !remeasured_app, Hmm, Hf. simpl. exact Hm.
Qed.

Lemma column_width_refresh_measures_first_row_witness :
  exists later,
    trace (state_of (remove_row three_rows (Named "r2"%string))) = trace three_rows ++ later /\
    remeasured later =
      first_row_cell_keys (state_of (remove_row three_rows (Named "r2"%string))).
Proof.
  destruct (column_width_refresh_measures_first_row three_rows) as (Hremove & _ & _).
  apply (Hremove (Named "r2"%string) (state_of (remove_row three_rows (Named "r2"%string)))).
  vm_compute. reflexivity.
Defined.

(** ** Toggling the current row *)

Lemma row_checked_ref (s : State) (k : Key) :
  row_checked s k =
  match checkbox_ref s k with
  | Some l => checkboxes s !! l
  | None => None
  end.
Proof.
  unfold row_checked, checkbox_ref, row_checkbox_ref.
  destruct (lookup_key k (rows s)) as [r|]; [|reflexivity].
  destruct (lookup_key (Named "checkbox"%string) (row_cells r)) as [[x|x|l|]|]; reflexivity.
Qed.

Lemma action_toggle_row_empty (s : State) :
  DataTable.row_count s = 0 -> action_toggle_row s = Ok s tt.
Proof.
  intros Hempty. unfold action_toggle_row, DataTable.coordinate_to_cell_key.
  destruct (DataTable.is_valid_coordinate s (cursor_coordinate s)) eqn:Hvalid.
  - apply is_valid_coordinate_bounds in Hvalid. lia.
  - reflexivity.
Qed.

(** What a successful toggle does to the table. *)
Lemma action_toggle_row_effect (s : State) (row_key column_key : Key) (l : loc) (checked : bool) :
  DataTable.coordinate_to_cell_key s (cursor_coordinate s) = Ok s (row_key, column_key) ->
  checkbox_ref s row_key = Some l ->
  checkboxes s !! l = Some checked ->
  exists s', action_toggle_row s = Ok s' tt /\
             checkboxes s' = <[l := negb checked]> (checkboxes s) /\
             rows s' = rows s /\ columns s' = columns s /\
             cursor_coordinate s' = cursor_coordinate s /\
             trace s' = trace s ++ [Refresh].
Proof.
  intros Hkey Href Hbox. unfold action_toggle_row. rewrite Hkey. cbn [bind fst].
  unfold checkbox_ref, row_checkbox_ref in Href. unfold DataTable.get_cell.
  destruct (lookup_key row_key (rows s)) as [r|]; [|discriminate].
  destruct (lookup_key (Named "checkbox"%string) (row_cells r)) as [[x|x|l'|]|];
    try discriminate.
  inversion Href; subst l'. cbn [bind]. unfold toggle. rewrite Hbox. cbn [bind].
  eexists. split; [reflexivity|]. repeat split; reflexivity.
Qed.

(** C5: toggle-current-row flips the checked flag of exactly one
    [Checkbox] object, the one the cursor row's checkbox column refers
    to, so that this row shows the opposite state and, rows not sharing
    checkboxes, every other row shows the state it showed before; on an
    empty grid the command returns normally and changes nothing. *)
Theorem action_toggle_row_flips_one (s : State) :
  (DataTable.row_count s = 0 -> action_toggle_row s = Ok s tt) /\
  (forall row_key column_key checked,
     DataTable.coordinate_to_cell_key s (cursor_coordinate s) = Ok s (row_key, column_key) ->
     row_checked s row_key = Some checked ->
     checkboxes_unshared s ->
     exists s' l,
       action_toggle_row s = Ok s' tt /\
       checkbox_ref s row_key = Some l /\
       checkboxes s' = <[l := negb checked]> (checkboxes s) /\
       (forall l', l' <> l -> checkboxes s' !! l' = checkboxes s !! l') /\
       rows s' = rows s /\
       row_checked s' row_key = Some (negb checked) /\
       (forall other, other <> row_key -> row_checked s' other = row_checked s other)).
Proof.
  split; [apply action_toggle_row_empty|].
  intros row_key column_key checked Hkey Hchecked Hunshared.
  rewrite row_checked_ref in Hchecked.
  destruct (checkbox_ref s row_key) as [l|] eqn:Href; [|discriminate].
  destruct (action_toggle_row_effect s row_key column_key l checked Hkey Href Hchecked)
    as (s' & Hrun & Hboxes & Hrows & _).
  assert (Hrefs : forall k, checkbox_ref s' k = checkbox_ref s k).
  { intros k. unfold checkbox_ref. rewrite Hrows. reflexivity. }
  exists s', l. split; [exact Hrun|]. split; [reflexivity|]. split; [exact Hboxes|].
  split; [|split; [exact Hrows|split]].
  - intros l' Hne. rewrite Hboxes. apply list_lookup_insert_ne. congruence.
  - rewrite row_checked_ref, Hrefs, Href, Hboxes.
    apply list_lookup_insert_eq. apply lookup_lt_Some in Hchecked. exact Hchecked.
  - intros other Hother. rewrite !row_checked_ref, Hrefs.
    destruct (checkbox_ref s other) as [l'|] eqn:Hother_ref; [|reflexivity].
    rewrite Hboxes. apply list_lookup_insert_ne.
    intros ->. apply Hother. apply (Hunshared other row_key l'); assumption.
Qed.

(** ** Ownership of the checkbox objects *)

Lemma lookup_key_app {A : Type} (k k' : Key) (v : A) (d : list (Key * A)) :
  lookup_key k (d ++ [(k', v)]) =
  match lookup_key k d with
  | Some x => Some x
  | None => if Key_eqb k' k then Some v else None
  end.
Proof.
  induction d as [|[k0 v0] d IH]; simpl; [reflexivity|].
  destruct (Key_eqb k0 k); [reflexivity | exact IH].
Qed.

Lemma lookup_key_delete {A : Type} (k k0 : Key) (d : list (Key * A)) :
  lookup_key k (delete_key k0 d) = if Key_eqb k0 k then None else lookup_key k d.
Proof.
  induction d as [|[k1 v1] d IH]; simpl.
  - destruct (Key_eqb k0 k); reflexivity.
  - destruct (Key_eqb k1 k0) eqn:E10.
    + rewrite IH. destruct (Key_eqb k0 k) eqn:E0; [reflexivity|].
      destruct (Key_eqb k1 k) eqn:E1; [|reflexivity].
      apply Key_eqb_eq in E10, E1. subst. rewrite Key_eqb_refl in E0. discriminate.
    + simpl. destruct (Key_eqb k1 k) eqn:E1.
      * destruct (Key_eqb k0 k) eqn:E0; [|reflexivity].
        apply Key_eqb_eq in E0, E1. subst. rewrite Key_eqb_refl in E10. discriminate.
      * exact IH.
Qed.

Lemma lookup_key_map {A B : Type} (f : A -> B) (k : Key) (d : list (Key * A)) :
  lookup_key k (map (fun kv => (fst kv, f (snd kv))) d) = option_map f (lookup_key k d).
Proof.
  induction d as [|[k0 v0] d IH]; simpl; [reflexivity|].
  destruct (Key_eqb k0 k); [reflexivity | exact IH].
Qed.

Lemma lookup_key_In {A : Type} (k : Key) (v : A) (d : list (Key * A)) :
  lookup_key k d = Some v -> exists k', In (k', v) d.
Proof.
  induction d as [|[k0 v0] d IH]; simpl; [discriminate|].
  destruct (Key_eqb k0 k).
  - intros H; inversion H; subst. exists k0. left; reflexivity.
  - intros H. destruct (IH H) as (k' & Hin). exists k'. right; exact Hin.
Qed.

Lemma zip_longest_values (cols : list Column) : forall (cells : list Cell) (k : Key) (v : Cell),
  In (k, v) (zip_longest cols cells) -> v = NoCell \/ In v cells.
Proof.
  induction cols as [|c cols IH]; intros cells k v; simpl; [intros []|].
  destruct cells as [|x cells]; simpl.
  - intros [H|H]; [inversion H; auto|]. destruct (IH [] k v H) as [E|[]]; auto.
  - intros [H|H]; [inversion H; auto|]. destruct (IH cells k v H); auto.
Qed.

(** Ownership looks at the rows and at the size of the store only. *)
Lemma owned_frame (s s' : State) :
  rows s' = rows s ->
  (length (checkboxes s) <= length (checkboxes s'))%nat ->
  checkboxes_owned s -> checkboxes_owned s'.
Proof.
  intros Hrows Hlen (Hbound & Hunshared).
  assert (Href : forall k, checkbox_ref s' k = checkbox_ref s k)
    by (intros k; unfold checkbox_ref; rewrite Hrows; reflexivity).
  split.
  - intros k l H. rewrite Href in H. apply Hbound in H. lia.
  - intros k1 k2 l H1 H2. rewrite Href in H1, H2. eapply Hunshared; eassumption.
Qed.

Lemma owned_no_rows (s : State) : rows s = [] -> checkboxes_owned s.
Proof.
  intros Hrows. split.
  - intros k l. unfold checkbox_ref. rewrite Hrows. discriminate.
  - intros k1 k2 l. unfold checkbox_ref. rewrite Hrows. discriminate.
Qed.

Lemma owned_append (s s' : State) (k : Key) (r : Row) :
  checkboxes_owned s ->
  rows s' = rows s ++ [(k, r)] ->
  (length (checkboxes s) <= length (checkboxes s'))%nat ->
  (forall l, row_checkbox_ref r = Some l ->
             (length (checkboxes s) <= l < length (checkboxes s'))%nat) ->
  checkboxes_owned s'.
Proof.
  intros (Hbound & Hunshared) Hrows Hlen Hnew.
  assert (Href : forall k0 l, checkbox_ref s' k0 = Some l ->
            checkbox_ref s k0 = Some l \/
            (lookup_key k0 (rows s) = None /\ k0 = k /\ row_checkbox_ref r = Some l)).
  { intros k0 l. unfold checkbox_ref. rewrite Hrows, lookup_key_app.
    destruct (lookup_key k0 (rows s)) as [r0|]; [auto|].
    destruct (Key_eqb k k0) eqn:E; [|discriminate].
    apply Key_eqb_eq in E. subst k0. auto. }
  split.
  - intros k0 l H. destruct (Href k0 l H) as [H0 | (_ & _ & H0)].
    + apply Hbound in H0. lia.
    + apply Hnew in H0. lia.
  - intros k1 k2 l H1 H2.
    destruct (Href k1 l H1) as [A | (_ & -> & A)];
      destruct (Href k2 l H2) as [B | (_ & -> & B)].
    + eapply Hunshared; eassumption.
    + apply Hbound in A. apply Hnew in B. lia.
    + apply Hbound in B. apply Hnew in A. lia.
    + reflexivity.
Qed.

Lemma owned_delete (s s' : State) (k : Key) :
  checkboxes_owned s ->
  rows s' = delete_key k (rows s) ->
  (length (checkboxes s) <= length (checkboxes s'))%nat ->
  checkboxes_owned s'.
Proof.
  intros (Hbound & Hunshared) Hrows Hlen.
  assert (Href : forall k0 l, checkbox_ref s' k0 = Some l -> checkbox_ref s k0 = Some l).
  { intros k0 l. unfold checkbox_ref. rewrite Hrows, lookup_key_delete.
    destruct (Key_eqb k k0); [discriminate | auto]. }
  split.
  - intros k0 l H. apply Href, Hbound in H. lia.
  - intros k1 k2 l H1 H2. apply Href in H1, H2. eapply Hunshared; eassumption.
Qed.

Lemma owned_sub (s s' : State) :
  (forall k l, checkbox_ref s' k = Some l -> checkbox_ref s k = Some l) ->
  (length (checkboxes s) <= length (checkboxes s'))%nat ->
  checkboxes_owned s -> checkboxes_owned s'.
Proof.
  intros Href Hlen (Hbound & Hunshared). split.
  - intros k l H. apply Href, Hbound in H. lia.
  - intros k1 k2 l H1 H2. apply Href in H1, H2. eapply Hunshared; eassumption.
Qed.

Lemma state_of_except (r : Result unit) :
  state_of (except_CellDoesNotExist_pass r) = state_of r.
Proof. destruct r as [s a|s []]; reflexivity. Qed.

(** One [add_row] call, in either mode. *)
Lemma add_row_effect (s : State) cells height key label explicit_by_user sender :
  let r := add_row s cells height key label explicit_by_user sender in
  let cells' := if row_disable s
                then CheckboxRef (length (checkboxes s)) :: cells else cells in
  checkboxes (state_of r) =
    (if row_disable s then checkboxes s ++ [true] else checkboxes s) /\
  (rows (state_of r) = rows s \/
   exists k, rows (state_of r) =
               rows s ++ [(k, mkRow height label (zip_longest (columns s) cells'))]).
Proof.
  unfold add_row. destruct (row_disable s); simpl;
    match goal with |- context [DataTable.add_row ?s' ?c ?h ?k ?l] =>
      pose proof (base_add_row_effect s' c h k l) as (_ & Hb & _ & _ & Hrows) end;
    simpl in Hb, Hrows; (split; [exact Hb|]);
    (destruct Hrows as [(_ & Hsame) | (k & _ & _ & _ & Hnew)];
       [left; exact Hsame | right; exists k; exact Hnew]).
Qed.

Lemma add_row_owned (s : State) cells height key label explicit_by_user sender :
  forallb business_cell cells = true ->
  checkboxes_owned s ->
  checkboxes_owned (state_of (add_row s cells height key label explicit_by_user sender)).
Proof.
  intros Hcells Howned.
  pose proof (add_row_effect s cells height key label explicit_by_user sender)
    as (Hboxes & Hrows). simpl in Hboxes, Hrows.
  assert (Hlen : (length (checkboxes s) <=
                  length (checkboxes (state_of
                    (add_row s cells height key label explicit_by_user sender))))%nat).
  { rewrite Hboxes. destruct (row_disable s); [rewrite length_app|]; simpl; lia. }
  destruct Hrows as [Hsame | (k & Hnew)].
  - eapply owned_frame; eassumption.
  - eapply owned_append; try eassumption.
    intros l Hl. unfold row_checkbox_ref in Hl. simpl in Hl.
    match type of Hl with
    | match ?x with _ => _ end = _ => destruct x as [[a|a|l'|]|] eqn:Hlook; try discriminate
    end.
    inversion Hl; subst l'.
    apply lookup_key_In in Hlook as (k' & Hin).
    apply zip_longest_values in Hin as [Hin|Hin]; [discriminate|].
    assert (Hbusiness : ~ In (CheckboxRef l) cells).
    { intros H. rewrite forallb_forall in Hcells. apply Hcells in H. discriminate. }
    destruct (row_disable s).
    + destruct Hin as [Hin|Hin]; [|contradiction].
      inversion Hin; subst l. rewrite Hboxes, length_app. simpl. lia.
    + contradiction.
Qed.

Lemma base_add_column_owned (s : State) label width key default :
  business_default default = true ->
  checkboxes_owned s ->
  checkboxes_owned (state_of (DataTable.add_column s label width key default)).
Proof.
  intros Hdefault Howned. unfold DataTable.add_column.
  destruct (DataTable.make_key s key) as [s1 k] eqn:Hk.
  pose proof (make_key_columns s key) as (_ & Hr & _ & Hb & _).
  rewrite Hk in Hr, Hb. simpl in Hr, Hb.
  assert (Howned1 : checkboxes_owned s1).
  { eapply owned_frame; [exact Hr | rewrite Hb; lia | exact Howned]. }
  destruct (has_column k (columns s1)); simpl; [exact Howned1|].
  eapply owned_sub; [| |exact Howned1]; simpl; [|lia].
  intros k0 l. unfold checkbox_ref. simpl.
  rewrite (lookup_key_map
             (fun r => mkRow (row_height r) (row_label r) (row_cells r ++ [(k, default)]))).
  destruct (lookup_key k0 (rows s1)) as [r|]; simpl; [|discriminate].
  unfold row_checkbox_ref. simpl. rewrite lookup_key_app.
  destruct (lookup_key (Named "checkbox"%string) (row_cells r)) as [v|]; [auto|].
  destruct (Key_eqb k (Named "checkbox"%string)); [|discriminate].
  destruct default; try discriminate.
Qed.

Lemma add_column_owned (s : State) label width key default :
  business_default default = true ->
  checkboxes_owned s ->
  checkboxes_owned (state_of (add_column s label width key default)).
Proof.
  intros Hdefault Howned. unfold add_column.
  destruct (row_disable s && (length (columns s) =? 0)%nat).
  - pose proof (base_add_column_owned s (Some ""%string) (Some 1)
                  (Some "checkbox"%string) NoCell eq_refl Howned) as H1.
    destruct (DataTable.add_column s (Some ""%string) (Some 1)
                (Some "checkbox"%string) NoCell) as [s1 k1|s1 e]; simpl in *.
    + apply base_add_column_owned; assumption.
    + exact H1.
  - simpl. apply base_add_column_owned; assumption.
Qed.

Lemma remove_row_owned (s : State) (row_key : Key) :
  checkboxes_owned s -> checkboxes_owned (state_of (remove_row s row_key)).
Proof.
  intros Howned. unfold remove_row.
  pose proof (base_remove_row_effect (DataTable.post_message s (RowsRemoved true)) row_key)
    as (_ & Hb & _ & [(Hr & _) | (Hr & _ & Hrows)]).
  - rewrite Hr. simpl. eapply owned_frame; [| |exact Howned]; simpl; [reflexivity | lia].
  - rewrite Hr. simpl.
    pose proof (column_width_refresh_trace
                  (state_of (DataTable.remove_row
                               (DataTable.post_message s (RowsRemoved true)) row_key)))
      as (Hr' & Hb' & _).
    eapply owned_delete; [exact Howned | rewrite Hr'; exact Hrows |].
    rewrite Hb', Hb. simpl. lia.
Qed.

Lemma clear_owned (s : State) (cols : bool) : checkboxes_owned (clear s cols).
Proof. apply owned_no_rows. apply clear_remeasures. Qed.

Lemma add_each_row_owned (new_rows : list (list Cell)) : forall (s : State),
  forallb (forallb business_cell) new_rows = true ->
  checkboxes_owned s ->
  checkboxes_owned (state_of (add_each_row s new_rows)).
Proof.
  induction new_rows as [|r rest IH]; intros s Hcells Howned; simpl; [exact Howned|].
  simpl in Hcells. apply andb_true_iff in Hcells as [Hr Hrest].
  pose proof (add_row_owned s r (Some 1) None None false None Hr Howned) as H1.
  destruct (add_row s r (Some 1) None None false None) as [s1 k|s1 e]; simpl in *.
  - apply IH; assumption.
  - exact H1.
Qed.

Lemma replace_all_rows_owned (s : State) (new_rows : list (list Cell)) :
  forallb (forallb business_cell) new_rows = true ->
  checkboxes_owned (state_of (replace_all_rows s new_rows)).
Proof.
  intros Hcells. unfold replace_all_rows.
  pose proof (add_each_row_owned new_rows (clear s false) Hcells (clear_owned s false)) as H.
  destruct (add_each_row (clear s false) new_rows) as [s2 rv|s2 e]; cbn [bind state_of] in *.
  - pose proof (column_width_refresh_trace s2) as (Hr & Hb & _).
    eapply owned_frame; [exact Hr | rewrite Hb; lia | exact H].
  - exact H.
Qed.

Lemma action_toggle_row_frame (s : State) :
  rows (state_of (action_toggle_row s)) = rows s /\
  length (checkboxes (state_of (action_toggle_row s))) = length (checkboxes s).
Proof.
  unfold action_toggle_row. rewrite state_of_except.
  destruct (DataTable.coordinate_to_cell_key s (cursor_coordinate s)) as [s1 k|s1 e] eqn:Hkey;
    cbn [bind state_of].
  - apply coordinate_to_cell_key_ok in Hkey as (-> & _).
    destruct (DataTable.get_cell s k.1 (Named "checkbox"%string)) as [s2 v|s2 e] eqn:Hcell;
      cbn [bind state_of].
    + apply get_cell_ok in Hcell as (-> & _).
      unfold toggle. destruct v as [x|x|l|]; cbn [bind state_of]; auto.
      destruct (checkboxes s !! l) as [b|]; cbn [bind state_of]; auto.
      simpl. split; [reflexivity | apply length_insert].
    + apply get_cell_raise in Hcell as (-> & _). auto.
  - apply coordinate_to_cell_key_raise in Hkey as (-> & _). auto.
Qed.

Lemma action_remove_row_owned (s : State) :
  checkboxes_owned s -> checkboxes_owned (state_of (action_remove_row s)).
Proof.
  intros Howned. unfold action_remove_row. rewrite state_of_except.
  destruct (DataTable.coordinate_to_cell_key s (cursor_coordinate s)) as [s1 k|s1 e] eqn:Hkey;
    cbn [bind state_of].
  - apply coordinate_to_cell_key_ok in Hkey as (-> & _). apply remove_row_owned, Howned.
  - apply coordinate_to_cell_key_raise in Hkey as (-> & _). exact Howned.
Qed.

Lemma cursor_actions_frame (s : State) :
  (rows (action_cursor_down s) = rows s /\
   checkboxes (action_cursor_down s) = checkboxes s) /\
  (rows (action_cursor_up s) = rows s /\
   checkboxes (action_cursor_up s) = checkboxes s).
Proof.
  unfold action_cursor_down, action_cursor_up, DataTable.action_cursor_down,
    DataTable.action_cursor_up.
  split; split;
    repeat match goal with
           | |- context [if ?b then _ else _] => destruct b
           end; reflexivity.
Qed.

(** Every table a host can build keeps its checkbox objects owned: each
    referenced object exists and no two rows share one. *)
Lemma reachable_owned (s : State) : reachable s -> checkboxes_owned s.
Proof.
  induction 1 as [fixed show kind | v s _ IH | v s _ IH | v s _ IH | c s _ IH
                 | s label width key default _ IH Hd
                 | s cells height key label e sender _ IH Hc
                 | s row_key _ IH | s cols _ IH | s new_rows _ IH Hc
                 | s _ IH | s _ IH | s _ IH | s _ IH | s _ IH | s event _ IH].
  - apply owned_no_rows. reflexivity.
  - eapply owned_frame; [| |exact IH]; simpl; [reflexivity | lia].
  - eapply owned_frame; [| |exact IH]; simpl; [reflexivity | lia].
  - eapply owned_frame; [| |exact IH]; simpl; [reflexivity | lia].
  - eapply owned_frame; [| |exact IH]; simpl; [reflexivity | lia].
  - apply add_column_owned; assumption.
  - apply add_row_owned; assumption.
  - apply remove_row_owned; assumption.
  - apply clear_owned.
  - apply replace_all_rows_owned; assumption.
  - eapply owned_frame; [| |exact IH].
    + unfold action_toggle_fixed_columns. destruct (_fixed_columns_bak s); reflexivity.
    + unfold action_toggle_fixed_columns. destruct (_fixed_columns_bak s); simpl; lia.
  - destruct (cursor_actions_frame s) as ((Hr & Hb) & _).
    eapply owned_frame; [exact Hr | rewrite Hb; lia | exact IH].
  - destruct (cursor_actions_frame s) as (_ & (Hr & Hb)).
    eapply owned_frame; [exact Hr | rewrite Hb; lia | exact IH].
  - apply action_remove_row_owned; assumption.
  - destruct (action_toggle_row_frame s) as (Hr & Hb).
    eapply owned_frame; [exact Hr | rewrite Hb; lia | exact IH].
  - eapply owned_frame; [| |exact IH]; simpl; [reflexivity | lia].
Qed.

Lemma selectable_reachable : reachable selectable.
Proof.
  unfold selectable.
  apply reach_add_column; [|reflexivity].
  apply reach_add_column; [|reflexivity].
  apply reach_set_row_disable, reach_init.
Qed.

Lemma two_rows_reachable : reachable two_rows.
Proof.
  unfold two_rows.
  apply reach_add_row; [|reflexivity].
  apply reach_add_row; [|reflexivity].
  apply selectable_reachable.
Qed.

(** The scenario table: the cursor is on row "r0"; the toggle leaves
    "r0" unchecked and "r1" as it was created, checked. *)
Lemma action_toggle_row_scenario :
  row_checked two_rows (Named "r0"%string) = Some true /\
  row_checked two_rows (Named "r1"%string) = Some true /\
  row_checked (state_of (action_toggle_row two_rows)) (Named "r0"%string) = Some false /\
  row_checked (state_of (action_toggle_row two_rows)) (Named "r1"%string) = Some true.
Proof. repeat split; vm_compute; reflexivity. Qed.

Lemma action_toggle_row_flips_one_witness :
  action_toggle_row selectable = Ok selectable tt /\
  exists s' l,
    action_toggle_row two_rows = Ok s' tt /\
    checkbox_ref two_rows (Named "r0"%string) = Some l /\
    checkboxes s' = <[l := negb true]> (checkboxes two_rows) /\
    (forall l', l' <> l -> checkboxes s' !! l' = checkboxes two_rows !! l') /\
    rows s' = rows two_rows /\
    row_checked s' (Named "r0"%string) = Some (negb true) /\
    (forall other, other <> Named "r0"%string ->
                   row_checked s' other = row_checked two_rows other).
Proof.
  split.
  - apply (proj1 (action_toggle_row_flips_one selectable)). vm_compute. reflexivity.
  - apply (proj2 (action_toggle_row_flips_one two_rows)
             (Named "r0"%string) (Named "checkbox"%string) true).
    + vm_compute. reflexivity.
    + vm_compute. reflexivity.
    + apply (reachable_owned two_rows two_rows_reachable).
Defined.

(** * Further properties of the cursor commands *)

(** The state the move-down command reaches when it stays in the grid. *)
Lemma action_cursor_down_inside (s : State) :
  cursor_vertical_escape s = false ->
  show_cursor s = true ->
  addresses_rows (cursor_type s) = true ->
  DataTable.is_valid_coordinate s (cursor_coordinate s) = true ->
  action_cursor_down s =
    store_cursor_coordinate
      (if row (cursor_coordinate s) =? DataTable.row_count s - 1
       then mkCoordinate 0 (column (cursor_coordinate s))
       else mkCoordinate (row (cursor_coordinate s) + 1) (column (cursor_coordinate s)))
      (set_show_hover_cursor false s).
Proof.
  intros Hesc Hshow Hkind Hvalid.
  apply is_valid_coordinate_bounds in Hvalid.
  destruct s as [rd ve bak fc cols rws cbs [r c] sc ct hov uc ks ec tr].
  unfold action_cursor_down, DataTable._set_hover_cursor,
    DataTable.set_cursor_coordinate, DataTable._clamp_cursor_coordinate,
    DataTable.row_count in *; simpl in *.
  subst ve sc. rewrite Hkind, andb_false_r. simpl.
  destruct (Z.eqb_spec r (Z.of_nat (length rws) - 1)) as [E|E]; simpl;
    unfold store_cursor_coordinate, down; simpl;
    rewrite !clamp_within by lia; reflexivity.
Qed.

(** The state the move-up command reaches when it stays in the grid. *)
Lemma action_cursor_up_inside (s : State) :
  cursor_vertical_escape s = false ->
  show_cursor s = true ->
  addresses_rows (cursor_type s) = true ->
  DataTable.is_valid_coordinate s (cursor_coordinate s) = true ->
  action_cursor_up s =
    store_cursor_coordinate
      (if row (cursor_coordinate s) =? 0
       then mkCoordinate (DataTable.row_count s - 1) (column (cursor_coordinate s))
       else mkCoordinate (row (cursor_coordinate s) - 1) (column (cursor_coordinate s)))
      (set_show_hover_cursor false s).
Proof.
  intros Hesc Hshow Hkind Hvalid.
  apply is_valid_coordinate_bounds in Hvalid.
  destruct s as [rd ve bak fc cols rws cbs [r c] sc ct hov uc ks ec tr].
  unfold action_cursor_up, DataTable._set_hover_cursor,
    DataTable.set_cursor_coordinate, DataTable._clamp_cursor_coordinate,
    DataTable.row_count in *; simpl in *.
  subst ve sc. rewrite Hkind, andb_false_r. simpl.
  destruct (Z.eqb_spec r 0) as [E|E]; simpl;
    unfold store_cursor_coordinate, up; simpl;
    rewrite !clamp_within by lia; reflexivity.
Qed.

(** X1: with the cursor on row 0 and vertical escape enabled, move-up
    leaves the cursor coordinate and the rows as they were and makes
    exactly one call to the host, [focus_previous]. *)
Theorem action_cursor_up_first_row_escapes (s : State) :
  row (cursor_coordinate s) = 0 ->
  cursor_vertical_escape s = true ->
  cursor_coordinate (action_cursor_up s) = cursor_coordinate s /\
  rows (action_cursor_up s) = rows s /\
  trace (action_cursor_up s) = trace s ++ [FocusPrevious].
Proof.
  intros Hrow Hesc.
  destruct s as [rd ve bak fc cols rws cbs cur sc ct hov uc ks ec tr].
  unfold action_cursor_up, DataTable._set_hover_cursor, DataTable.focus_previous;
    simpl in *.
  subst ve. rewrite Hrow. simpl. repeat split; reflexivity.
Qed.

Lemma action_cursor_up_first_row_escapes_witness :
  cursor_coordinate (action_cursor_up three_rows) = cursor_coordinate three_rows /\
  rows (action_cursor_up three_rows) = rows three_rows /\
  trace (action_cursor_up three_rows) = trace three_rows ++ [FocusPrevious].
Proof.
  apply (action_cursor_up_first_row_escapes three_rows); vm_compute; reflexivity.
Defined.

(** X2: with vertical escape disabled, the cursor shown, a cell or row
    cursor and the cursor within the grid, move-up from row 0 puts the
    cursor on the last row of the same column, and from any other row
    moves it up by exactly one row; no call is made to the host. *)
Theorem action_cursor_up_wraps_or_retreats (s : State) :
  cursor_vertical_escape s = false ->
  show_cursor s = true ->
  addresses_rows (cursor_type s) = true ->
  DataTable.is_valid_coordinate s (cursor_coordinate s) = true ->
  (row (cursor_coordinate s) = 0 ->
   cursor_coordinate (action_cursor_up s) =
     mkCoordinate (DataTable.row_count s - 1) (column (cursor_coordinate s))) /\
  (row (cursor_coordinate s) <> 0 ->
   cursor_coordinate (action_cursor_up s) =
     mkCoordinate (row (cursor_coordinate s) - 1) (column (cursor_coordinate s))) /\
  trace (action_cursor_up s) = trace s.
Proof.
  intros Hesc Hshow Hkind Hvalid.
  rewrite (action_cursor_up_inside s Hesc Hshow Hkind Hvalid). simpl.
  destruct (Z.eqb_spec (row (cursor_coordinate s)) 0) as [E|E];
    repeat split; intros; congruence.
Qed.

Lemma action_cursor_up_wraps_or_retreats_witness :
  cursor_coordinate (action_cursor_up (set_cursor_vertical_escape false three_rows)) =
  mkCoordinate (DataTable.row_count (set_cursor_vertical_escape false three_rows) - 1)
               (column (cursor_coordinate (set_cursor_vertical_escape false three_rows))).
Proof.
  apply (action_cursor_up_wraps_or_retreats (set_cursor_vertical_escape false three_rows));
    vm_compute; reflexivity.
Defined.

(** X3: move-down asks the host for a focus transfer exactly when the
    cursor row equals [row_count - 1] and vertical escape is enabled, and
    then for [focus_next] only; move-up exactly when the cursor row is 0
    and vertical escape is enabled, and then for [focus_previous] only.
    Neither command posts a message. *)
Theorem focus_transfer_only_at_boundary (s : State) :
  (exists later,
     trace (action_cursor_down s) = trace s ++ later /\
     focus_requests later =
       (if (row (cursor_coordinate s) =? DataTable.row_count s - 1)
           && cursor_vertical_escape s
        then [FocusNext] else []) /\
     posted later = []) /\
  (exists later,
     trace (action_cursor_up s) = trace s ++ later /\
     focus_requests later =
       (if (row (cursor_coordinate s) =? 0) && cursor_vertical_escape s
        then [FocusPrevious] else []) /\
     posted later = []).
Proof.
  destruct s as [rd ve bak fc cols rws cbs [r c] sc ct hov uc ks ec tr].
  unfold action_cursor_down, action_cursor_up, DataTable._set_hover_cursor,
    DataTable.focus_next, DataTable.focus_previous, DataTable.action_cursor_down,
    DataTable.action_cursor_up, DataTable.set_cursor_coordinate, DataTable.row_count;
    simpl.
  split.
  - destruct ((r =? Z.of_nat (length rws) - 1) && ve); simpl.
    + exists [FocusNext]. repeat split; reflexivity.
    + destruct (sc && addresses_rows ct); simpl.
      * exists []. rewrite app_nil_r.
        destruct (r =? Z.of_nat (length rws) - 1); repeat split; reflexivity.
      * exists [ScrollDown]. repeat split; reflexivity.
  - destruct ((r =? 0) && ve); simpl.
    + exists [FocusPrevious]. repeat split; reflexivity.
    + destruct (sc && addresses_rows ct); simpl.
      * exists []. rewrite app_nil_r.
        destruct (r =? 0); repeat split; reflexivity.
      * exists [ScrollUp]. repeat split; reflexivity.
Qed.

(** X4: with vertical escape disabled, the cursor shown, a cell or row
    cursor and the cursor within the grid, move-down followed by move-up
    and move-up followed by move-down both bring the cursor back to where
    it was, also across the wrap between the last row and row 0. *)
Theorem cursor_down_up_round_trip (s : State) :
  cursor_vertical_escape s = false ->
  show_cursor s = true ->
  addresses_rows (cursor_type s) = true ->
  DataTable.is_valid_coordinate s (cursor_coordinate s) = true ->
  cursor_coordinate (action_cursor_up (action_cursor_down s)) = cursor_coordinate s /\
  cursor_coordinate (action_cursor_down (action_cursor_up s)) = cursor_coordinate s.
Proof.
  intros Hesc Hshow Hkind Hvalid.
  pose proof (is_valid_coordinate_bounds s _ Hvalid) as (Hr & Hc).
  rewrite (action_cursor_down_inside s Hesc Hshow Hkind Hvalid).
  rewrite (action_cursor_up_inside s Hesc Hshow Hkind Hvalid).
  destruct s as [rd ve bak fc cols rws cbs [r c] sc ct hov uc ks ec tr].
  unfold DataTable.row_count in *; simpl in *. subst ve sc.
  split.
  - rewrite action_cursor_up_inside; simpl; auto.
    + unfold DataTable.row_count; simpl.
      destruct (Z.eqb_spec r (Z.of_nat (length rws) - 1)) as [E|E]; simpl.
      * f_equal. lia.
      * destruct (Z.eqb_spec (r + 1) 0); [lia|]. f_equal. lia.
    + unfold DataTable.is_valid_coordinate, DataTable.row_count; simpl.
      destruct (Z.eqb_spec r (Z.of_nat (length rws) - 1)) as [E|E]; simpl;
        rewrite !andb_true_iff, !Z.leb_le, !Z.ltb_lt; lia.
  - rewrite action_cursor_down_inside; simpl; auto.
    + unfold DataTable.row_count; simpl.
      destruct (Z.eqb_spec r 0) as [E|E]; simpl.
      * rewrite Z.eqb_refl. f_equal. lia.
      * destruct (Z.eqb_spec (r - 1) (Z.of_nat (length rws) - 1)); [lia|]. f_equal. lia.
    + unfold DataTable.is_valid_coordinate, DataTable.row_count; simpl.
      destruct (Z.eqb_spec r 0) as [E|E]; simpl;
        rewrite !andb_true_iff, !Z.leb_le, !Z.ltb_lt; lia.
Qed.

Lemma cursor_down_up_round_trip_witness :
  cursor_coordinate
    (action_cursor_up (action_cursor_down
       (at_row 2 (set_cursor_vertical_escape false three_rows)))) =
  cursor_coordinate (at_row 2 (set_cursor_vertical_escape false three_rows)) /\
  cursor_coordinate
    (action_cursor_down (action_cursor_up
       (at_row 2 (set_cursor_vertical_escape false three_rows)))) =
  cursor_coordinate (at_row 2 (set_cursor_vertical_escape false three_rows)).
Proof.
  apply (cursor_down_up_round_trip (at_row 2 (set_cursor_vertical_escape false three_rows)));
    vm_compute; reflexivity.
Defined.

(** * Further properties of toggle-current-row *)

Lemma coordinate_to_cell_key_frame (s s' : State) (c : Coordinate) (k : CellKey) :
  rows s' = rows s ->
  columns s' = columns s ->
  DataTable.coordinate_to_cell_key s c = Ok s k ->
  DataTable.coordinate_to_cell_key s' c = Ok s' k.
Proof.
  intros Hrows Hcols.
  unfold DataTable.coordinate_to_cell_key, DataTable.is_valid_coordinate,
    DataTable.row_count.
  rewrite Hrows, Hcols.
  destruct (_ && _); [|discriminate].
  destruct (rows s !! Z.to_nat (row c)) as [[rk r]|]; [|discriminate].
  destruct (columns s !! Z.to_nat (column c)) as [col|]; [|discriminate].
  intros H; inversion H. reflexivity.
Qed.

(** The state a successful toggle reaches. *)
Lemma action_toggle_row_flipped (s : State) (row_key column_key : Key) (l : loc) (checked : bool) :
  DataTable.coordinate_to_cell_key s (cursor_coordinate s) = Ok s (row_key, column_key) ->
  checkbox_ref s row_key = Some l ->
  checkboxes s !! l = Some checked ->
  action_toggle_row s =
    Ok (DataTable.refresh
          (set_update_count (_update_count s + 1)
             (set_checkboxes (<[l := negb checked]> (checkboxes s)) s))) tt.
Proof.
  intros Hkey Href Hbox. unfold action_toggle_row. rewrite Hkey. cbn [bind fst].
  unfold checkbox_ref, row_checkbox_ref in Href. unfold DataTable.get_cell.
  destruct (lookup_key row_key (rows s)) as [r|]; [|discriminate].
  destruct (lookup_key (Named "checkbox"%string) (row_cells r)) as [[x|x|l'|]|];
    try discriminate.
  inversion Href; subst l'. cbn [bind]. unfold toggle. rewrite Hbox. reflexivity.
Qed.

(** X5: toggling the current row twice restores the checked state of
    every row and the whole checkbox store; the two toggles request two
    redraws and raise the update counter by two. *)
Theorem action_toggle_row_twice (s : State) (row_key column_key : Key) (checked : bool) :
  DataTable.coordinate_to_cell_key s (cursor_coordinate s) = Ok s (row_key, column_key) ->
  row_checked s row_key = Some checked ->
  exists s1 s2,
    action_toggle_row s = Ok s1 tt /\
    action_toggle_row s1 = Ok s2 tt /\
    row_checked s1 row_key = Some (negb checked) /\
    checkboxes s2 = checkboxes s /\
    rows s2 = rows s /\
    (forall k, row_checked s2 k = row_checked s k) /\
    trace s2 = trace s ++ [Refresh; Refresh] /\
    _update_count s2 = _update_count s + 2.
Proof.
  intros Hkey Hchecked. rewrite row_checked_ref in Hchecked.
  destruct (checkbox_ref s row_key) as [l|] eqn:Href; [|discriminate].
  pose proof (action_toggle_row_flipped s row_key column_key l checked Hkey Href Hchecked)
    as Hrun1.
  set (s1 := DataTable.refresh
               (set_update_count (_update_count s + 1)
                  (set_checkboxes (<[l := negb checked]> (checkboxes s)) s))) in *.
  assert (Hkey1 : DataTable.coordinate_to_cell_key s1 (cursor_coordinate s1) =
                  Ok s1 (row_key, column_key)).
  { apply (coordinate_to_cell_key_frame s s1); [reflexivity | reflexivity | exact Hkey]. }
  assert (Href1 : checkbox_ref s1 row_key = Some l) by exact Href.
  assert (Hbox1 : checkboxes s1 !! l = Some (negb checked)).
  { subst s1. simpl. apply list_lookup_insert_eq.
    apply lookup_lt_Some in Hchecked. exact Hchecked. }
  pose proof (action_toggle_row_flipped s1 row_key column_key l (negb checked)
                Hkey1 Href1 Hbox1) as Hrun2.
  assert (Hstore : <[l := negb (negb checked)]> (checkboxes s1) = checkboxes s).
  { subst s1. simpl. rewrite list_insert_insert_eq, negb_involutive.
    apply list_insert_id. exact Hchecked. }
  match type of Hrun2 with _ = Ok ?x _ => set (s2 := x) in * end.
  assert (Hboxes2 : checkboxes s2 = checkboxes s) by exact Hstore.
  assert (Hrows2 : rows s2 = rows s) by reflexivity.
  exists s1, s2. split; [exact Hrun1|]. split; [exact Hrun2|].
  split; [rewrite row_checked_ref, Href1; exact Hbox1|].
  split; [exact Hboxes2|].
  split; [exact Hrows2|].
  split.
  - intros k. unfold row_checked. rewrite Hrows2, Hboxes2. reflexivity.
  - split.
    + change (trace s2) with ((trace s ++ [Refresh]) ++ [Refresh]).
      rewrite <- app_assoc. reflexivity.
    + change (_update_count s2) with (_update_count s + 1 + 1). lia.
Qed.

Lemma action_toggle_row_twice_witness :
  exists s1 s2,
    action_toggle_row two_rows = Ok s1 tt /\
    action_toggle_row s1 = Ok s2 tt /\
    row_checked s1 (Named "r0"%string) = Some (negb true) /\
    checkboxes s2 = checkboxes two_rows /\
    rows s2 = rows two_rows /\
    (forall k, row_checked s2 k = row_checked two_rows k) /\
    trace s2 = trace two_rows ++ [Refresh; Refresh] /\
    _update_count s2 = _update_count two_rows + 2.
Proof.
  apply (action_toggle_row_twice two_rows (Named "r0"%string) (Named "checkbox"%string) true);
    vm_compute; reflexivity.
Defined.

(** X6: only [CellDoesNotExist] is absorbed.  When the cell found under
    the key "checkbox" in the cursor's row is not a [Checkbox] (a [str],
    a [Text] or [None]), toggle-current-row raises [AttributeError] to its
    caller and leaves the table as it was. *)
Theorem action_toggle_row_not_a_checkbox (s : State) (row_key column_key : Key) (v : Cell) :
  DataTable.coordinate_to_cell_key s (cursor_coordinate s) = Ok s (row_key, column_key) ->
  DataTable.get_cell s row_key (Named "checkbox"%string) = Ok s v ->
  (forall l, v <> CheckboxRef l) ->
  action_toggle_row s = Raise s AttributeError.
Proof.
  intros Hkey Hcell Hv. unfold action_toggle_row. rewrite Hkey. cbn [bind fst].
  rewrite Hcell. cbn [bind]. unfold toggle.
  destruct v as [x|x|l|]; try reflexivity.
  exfalso. apply (Hv l). reflexivity.
Qed.

Lemma action_toggle_row_not_a_checkbox_witness :
  action_toggle_row text_in_checkbox_column = Raise text_in_checkbox_column AttributeError.
Proof.
  apply (action_toggle_row_not_a_checkbox text_in_checkbox_column
           (Named "r0"%string) (Named "checkbox"%string) (Str "a")).
  - vm_compute. reflexivity.
  - vm_compute. reflexivity.
  - intros l. discriminate.
Defined.

(** X7: whatever the table, toggle-current-row posts no message and
    leaves rows, columns and cursor alone.  Either it changes nothing at
    all (no redraw, counter and store as before), or it flips one stored
    checkbox, raises the update counter by one and requests exactly one
    redraw. *)
Theorem action_toggle_row_footprint (s : State) :
  let s' := state_of (action_toggle_row s) in
  rows s' = rows s /\ columns s' = columns s /\
  cursor_coordinate s' = cursor_coordinate s /\
  ((s' = s) \/
   (trace s' = trace s ++ [Refresh] /\
    _update_count s' = _update_count s + 1 /\
    exists l checked,
      checkboxes s !! l = Some checked /\
      checkboxes s' = <[l := negb checked]> (checkboxes s))).
Proof.
  unfold action_toggle_row. rewrite state_of_except.
  destruct (DataTable.coordinate_to_cell_key s (cursor_coordinate s)) as [s1 k|s1 e] eqn:Hkey;
    cbn [bind state_of].
  - apply coordinate_to_cell_key_ok in Hkey as (-> & _).
    destruct (DataTable.get_cell s k.1 (Named "checkbox"%string)) as [s2 v|s2 e] eqn:Hcell;
      cbn [bind state_of].
    + apply get_cell_ok in Hcell as (-> & _).
      unfold toggle. destruct v as [x|x|l|]; cbn [bind state_of]; auto.
      destruct (checkboxes s !! l) as [b|] eqn:Hbox; cbn [bind state_of]; auto.
      simpl. repeat split; auto. right. repeat split; auto. exists l, b. auto.
    + apply get_cell_raise in Hcell as (-> & _). auto.
  - apply coordinate_to_cell_key_raise in Hkey as (-> & _). auto.
Qed.

(** * Further properties of row removal *)

Lemma has_key_false_not_in {A : Type} (k : Key) (d : list (Key * A)) :
  has_key k d = false <-> k ∉ map fst d.
Proof.
  unfold has_key. induction d as [|[k0 v0] d IH]; simpl.
  - split; [intros _ H; inversion H | reflexivity].
  - rewrite not_elem_of_cons. destruct (Key_eqb k0 k) eqn:E.
    + apply Key_eqb_eq in E. subst. split; [discriminate | intros [H _]; congruence].
    + apply Key_eqb_neq in E. rewrite IH. split; [intros H; split; congruence | tauto].
Qed.

Lemma lookup_index_has_key {A : Type} (d : list (Key * A)) : forall (i : nat) (k : Key) (v : A),
  d !! i = Some (k, v) -> has_key k d = true.
Proof.
  unfold has_key. induction d as [|[k0 v0] d IH]; intros i k v H; [discriminate|].
  simpl. destruct (Key_eqb k0 k) eqn:E; [reflexivity|].
  destruct i as [|i]; simpl in H.
  - inversion H; subst. rewrite Key_eqb_refl in E. discriminate.
  - apply (IH i k v H).
Qed.

Lemma delete_key_keys {A : Type} (k : Key) (d : list (Key * A)) :
  map fst (delete_key k d) = filter (fun k' => Key_eqb k' k = false) (map fst d).
Proof.
  induction d as [|[k0 v0] d IH]; simpl; [reflexivity|].
  rewrite filter_cons. destruct (Key_eqb k0 k) eqn:E; simpl.
  - destruct (decide (true = false)); [discriminate | exact IH].
  - destruct (decide (false = false)); [|congruence]. simpl. rewrite IH. reflexivity.
Qed.

Lemma delete_key_absent {A : Type} (k : Key) (d : list (Key * A)) :
  has_key k d = false -> delete_key k d = d.
Proof.
  unfold has_key. induction d as [|[k0 v0] d IH]; simpl; [reflexivity|].
  destruct (Key_eqb k0 k); [discriminate|]. intros H. rewrite IH; auto.
Qed.

Lemma delete_key_unique_length {A : Type} (k : Key) (d : list (Key * A)) :
  NoDup (map fst d) -> has_key k d = true ->
  S (length (delete_key k d)) = length d.
Proof.
  induction d as [|[k0 v0] d IH]; simpl; intros Hnd Hhas; [discriminate|].
  apply NoDup_cons in Hnd as (Hfresh & Hnd).
  unfold has_key in Hhas. simpl in Hhas.
  destruct (Key_eqb k0 k) eqn:E.
  - apply Key_eqb_eq in E. subst k0.
    rewrite delete_key_absent; [reflexivity|]. apply has_key_false_not_in, Hfresh.
  - simpl. f_equal. apply IH; [exact Hnd|]. exact Hhas.
Qed.

(** The two outcomes of [remove_row]. *)
Lemma remove_row_cases (s : State) (row_key : Key) :
  (has_key row_key (rows s) = false ->
   remove_row s row_key =
     Raise (DataTable.post_message s (RowsRemoved true)) RowDoesNotExist) /\
  (has_key row_key (rows s) = true ->
   exists s',
     remove_row s row_key = Ok s' tt /\
     lookup_key row_key (rows s') = None /\
     (forall column_key,
        DataTable.get_cell s' row_key column_key = Raise s' CellDoesNotExist) /\
     (forall other, other <> row_key ->
        lookup_key other (rows s') = lookup_key other (rows s) /\
        row_checked s' other = row_checked s other) /\
     row_keys s' = filter (fun k => Key_eqb k row_key = false) (row_keys s) /\
     checkboxes s' = checkboxes s /\
     columns s' = columns s /\
     (NoDup (row_keys s) -> S (length (rows s')) = length (rows s))).
Proof.
  unfold remove_row.
  pose proof (base_remove_row_effect (DataTable.post_message s (RowsRemoved true)) row_key)
    as (_ & Hb & Hc & Hcases).
  split; intros Hhas.
  - destruct Hcases as [(Hr & _) | (_ & Hhas' & _)]; [|simpl in Hhas'; congruence].
    rewrite Hr. reflexivity.
  - destruct Hcases as [(_ & Hhas') | (Hr & _ & Hrows)]; [simpl in Hhas'; congruence|].
    rewrite Hr. cbn [bind].
    set (s2 := state_of (DataTable.remove_row
                           (DataTable.post_message s (RowsRemoved true)) row_key)) in *.
    pose proof (column_width_refresh_trace s2) as (Hr' & Hb' & Hc' & _).
    simpl in Hrows, Hb, Hc.
    assert (Hrows' : rows (_column_width_refresh s2) = delete_key row_key (rows s))
      by (rewrite Hr'; exact Hrows).
    assert (Hgone : lookup_key row_key (rows (_column_width_refresh s2)) = None)
      by (rewrite Hrows', lookup_key_delete, Key_eqb_refl; reflexivity).
    assert (Hkeep : forall other, other <> row_key ->
              lookup_key other (rows (_column_width_refresh s2)) = lookup_key other (rows s)).
    { intros other Hne. rewrite Hrows', lookup_key_delete.
      destruct (Key_eqb row_key other) eqn:E; [|reflexivity].
      apply Key_eqb_eq in E. congruence. }
    exists (_column_width_refresh s2).
    split; [reflexivity|]. split; [exact Hgone|].
    split; [intros ck; unfold DataTable.get_cell; rewrite Hgone; reflexivity|].
    split.
    { intros other Hne. split; [apply Hkeep, Hne|].
      unfold row_checked. rewrite (Hkeep other Hne), Hb', Hb. reflexivity. }
    split; [unfold row_keys; rewrite Hrows'; apply delete_key_keys|].
    split; [rewrite Hb'; exact Hb|].
    split; [rewrite Hc'; exact Hc|].
    intros Hnd. rewrite Hrows'. apply delete_key_unique_length; assumption.
Qed.

(** X8: [remove_row] with a key the table does not hold raises
    [RowDoesNotExist] after the RowsRemoved notification has been posted,
    with no row removed and no width refresh.  With a key the table
    holds it returns normally: lookups of the removed key, [get_cell]
    included, now fail; every other row keeps its cells, its checked
    state and its relative position; the checkbox store and the columns
    are untouched; and, row keys being unique, the row count drops by
    exactly one. *)
Theorem remove_row_outcome (s : State) (row_key : Key) :
  (has_key row_key (rows s) = false ->
   remove_row s row_key =
     Raise (DataTable.post_message s (RowsRemoved true)) RowDoesNotExist) /\
  (has_key row_key (rows s) = true ->
   exists s',
     remove_row s row_key = Ok s' tt /\
     lookup_key row_key (rows s') = None /\
     (forall column_key,
        DataTable.get_cell s' row_key column_key = Raise s' CellDoesNotExist) /\
     (forall other, other <> row_key ->
        lookup_key other (rows s') = lookup_key other (rows s) /\
        row_checked s' other = row_checked s other) /\
     row_keys s' = filter (fun k => Key_eqb k row_key = false) (row_keys s) /\
     checkboxes s' = checkboxes s /\
     columns s' = columns s /\
     (NoDup (row_keys s) -> S (length (rows s')) = length (rows s))).
Proof. exact (remove_row_cases s row_key). Qed.

Lemma remove_row_outcome_witness :
  remove_row three_rows (Named "zz"%string) =
    Raise (DataTable.post_message three_rows (RowsRemoved true)) RowDoesNotExist /\
  exists s',
    remove_row three_rows (Named "r1"%string) = Ok s' tt /\
    lookup_key (Named "r1"%string) (rows s') = None /\
    (forall column_key,
       DataTable.get_cell s' (Named "r1"%string) column_key = Raise s' CellDoesNotExist) /\
    (forall other, other <> Named "r1"%string ->
       lookup_key other (rows s') = lookup_key other (rows three_rows) /\
       row_checked s' other = row_checked three_rows other) /\
    row_keys s' =
      filter (fun k => Key_eqb k (Named "r1"%string) = false) (row_keys three_rows) /\
    checkboxes s' = checkboxes three_rows /\
    columns s' = columns three_rows /\
    (NoDup (row_keys three_rows) -> S (length (rows s')) = length (rows three_rows)).
Proof.
  split.
  - apply (proj1 (remove_row_outcome three_rows (Named "zz"%string))).
    vm_compute. reflexivity.
  - apply (proj2 (remove_row_outcome three_rows (Named "r1"%string))).
    vm_compute. reflexivity.
Defined.

(** The calls a successful [remove_row] makes: the notification, then at
    most the width refresh. *)
Lemma remove_row_calls (s : State) (row_key : Key) (s' : State) :
  remove_row s row_key = Ok s' tt ->
  exists later,
    trace s' = trace s ++ Posted (RowsRemoved true) :: later /\
    posted later = [].
Proof.
  intros H. unfold remove_row in H.
  pose proof (base_remove_row_effect (DataTable.post_message s (RowsRemoved true)) row_key)
    as (Ht & _).
  destruct (DataTable.remove_row (DataTable.post_message s (RowsRemoved true)) row_key)
    as [s2 rv|s2 e]; cbn [bind state_of] in H, Ht; [|discriminate].
  inversion H; subst s'.
  pose proof (column_width_refresh_trace s2) as (_ & _ & _ & Hw).
  rewrite Hw, Ht. simpl. rewrite <- app_assoc. simpl.
  eexists. split; [reflexivity|]. destruct (rows s2); reflexivity.
Qed.

(** X9: remove-current-row never raises.  Without a cell under the
    cursor it changes nothing; with one, it removes the row whose key
    stands at the cursor's row index, posting one user-initiated
    RowsRemoved notification first. *)
Theorem action_remove_row_never_raises (s : State) :
  raised (action_remove_row s) = None /\
  (DataTable.is_valid_coordinate s (cursor_coordinate s) = false ->
   action_remove_row s = Ok s tt) /\
  (forall row_key r,
     DataTable.is_valid_coordinate s (cursor_coordinate s) = true ->
     rows s !! Z.to_nat (row (cursor_coordinate s)) = Some (row_key, r) ->
     exists s' later,
       action_remove_row s = Ok s' tt /\
       remove_row s row_key = Ok s' tt /\
       lookup_key row_key (rows s') = None /\
       trace s' = trace s ++ Posted (RowsRemoved true) :: later /\
       posted later = []).
Proof.
  assert (Hvalid_case : forall row_key r,
            DataTable.is_valid_coordinate s (cursor_coordinate s) = true ->
            rows s !! Z.to_nat (row (cursor_coordinate s)) = Some (row_key, r) ->
            exists s' later,
              action_remove_row s = Ok s' tt /\
              remove_row s row_key = Ok s' tt /\
              lookup_key row_key (rows s') = None /\
              trace s' = trace s ++ Posted (RowsRemoved true) :: later /\
              posted later = []).
  { intros row_key r Hvalid Hrow.
    pose proof (is_valid_coordinate_bounds s _ Hvalid) as (_ & Hcol).
    destruct (columns s !! Z.to_nat (column (cursor_coordinate s))) as [col|] eqn:Hcolumn.
    2:{ apply lookup_ge_None in Hcolumn. lia. }
    pose proof (lookup_index_has_key _ _ _ _ Hrow) as Hhas.
    destruct (proj2 (remove_row_cases s row_key) Hhas) as (s' & Hrun & Hgone & _).
    unfold action_remove_row, DataTable.coordinate_to_cell_key.
    rewrite Hvalid, Hrow, Hcolumn. cbn [bind fst]. rewrite Hrun.
    destruct (remove_row_calls s row_key s' Hrun)
      as (later & Ht & Hp).
    exists s', later. repeat split; auto. }
  split; [|split; [|exact Hvalid_case]].
  - destruct (DataTable.is_valid_coordinate s (cursor_coordinate s)) eqn:Hvalid.
    + pose proof (is_valid_coordinate_bounds s _ Hvalid) as (Hrow & _).
      destruct (rows s !! Z.to_nat (row (cursor_coordinate s))) as [[row_key r]|] eqn:Hr.
      * destruct (Hvalid_case row_key r eq_refl eq_refl) as (s' & later & Hrun & _).
        rewrite Hrun. reflexivity.
      * apply lookup_ge_None in Hr. unfold DataTable.row_count in Hrow. lia.
    + unfold action_remove_row, DataTable.coordinate_to_cell_key. rewrite Hvalid.
      reflexivity.
  - intros Hvalid. unfold action_remove_row, DataTable.coordinate_to_cell_key.
    rewrite Hvalid. reflexivity.
Qed.

Lemma action_remove_row_never_raises_witness :
  action_remove_row selectable = Ok selectable tt /\
  exists s' later,
    action_remove_row two_rows = Ok s' tt /\
    remove_row two_rows (Named "r0"%string) = Ok s' tt /\
    lookup_key (Named "r0"%string) (rows s') = None /\
    trace s' = trace two_rows ++ Posted (RowsRemoved true) :: later /\
    posted later = [].
Proof.
  split.
  - apply (proj1 (proj2 (action_remove_row_never_raises selectable))).
    vm_compute. reflexivity.
  - apply (proj2 (proj2 (action_remove_row_never_raises two_rows))
             (Named "r0"%string)
             (mkRow (Some 1) None
                [(Named "checkbox"%string, CheckboxRef 0%nat);
                 (Named "k"%string, Str "a"); (Named "v"%string, Str "b")])).
    + vm_compute. reflexivity.
    + vm_compute. reflexivity.
Defined.

(** * Unique row keys *)

Lemma add_row_rows (s : State) cells height key label explicit_by_user sender :
  let r := add_row s cells height key label explicit_by_user sender in
  let cells' := if row_disable s
                then CheckboxRef (length (checkboxes s)) :: cells else cells in
  columns (state_of r) = columns s /\
  ((raised r <> None /\ rows (state_of r) = rows s) \/
   exists k, r = Ok (state_of r) k /\ has_key k (rows s) = false /\
             (length cells' <= length (columns s))%nat /\
             rows (state_of r) =
               rows s ++ [(k, mkRow height label (zip_longest (columns s) cells'))]).
Proof.
  unfold add_row. destruct (row_disable s); simpl;
    match goal with |- context [DataTable.add_row ?s' ?c ?h ?k ?l] =>
      pose proof (base_add_row_effect s' c h k l) as (_ & _ & _ & Hc & Hrows) end;
    simpl in Hc, Hrows; (split; [exact Hc|]); exact Hrows.
Qed.

Lemma add_row_unique (s : State) cells height key label explicit_by_user sender :
  NoDup (row_keys s) ->
  NoDup (row_keys (state_of (add_row s cells height key label explicit_by_user sender))).
Proof.
  intros Hnd.
  pose proof (add_row_rows s cells height key label explicit_by_user sender)
    as (_ & [(_ & Hsame) | (k & _ & Hfresh & _ & Hnew)]); unfold row_keys.
  - rewrite Hsame. exact Hnd.
  - rewrite Hnew, map_app. simpl. apply NoDup_app. split; [exact Hnd|].
    split; [|apply NoDup_singleton].
    intros x Hx Hin. apply list_elem_of_singleton in Hin. subst x.
    apply has_key_false_not_in in Hfresh. contradiction.
Qed.

Lemma base_add_column_row_keys (s : State) label width key default :
  row_keys (state_of (DataTable.add_column s label width key default)) = row_keys s.
Proof.
  unfold DataTable.add_column, row_keys.
  destruct (DataTable.make_key s key) as [s1 k] eqn:Hk.
  pose proof (make_key_columns s key) as (_ & Hr & _).
  rewrite Hk in Hr. simpl in Hr.
  destruct (has_column k (columns s1)); simpl; [exact (f_equal (map fst) Hr)|].
  rewrite map_map. simpl. rewrite Hr. reflexivity.
Qed.

Lemma add_column_row_keys (s : State) label width key default :
  row_keys (state_of (add_column s label width key default)) = row_keys s.
Proof.
  unfold add_column.
  destruct (row_disable s && (length (columns s) =? 0)%nat).
  - pose proof (base_add_column_row_keys s (Some ""%string) (Some 1)
                  (Some "checkbox"%string) NoCell) as H1.
    destruct (DataTable.add_column s (Some ""%string) (Some 1)
                (Some "checkbox"%string) NoCell) as [s1 k1|s1 e]; cbn [bind state_of] in *.
    + rewrite base_add_column_row_keys. exact H1.
    + exact H1.
  - cbn [bind]. apply base_add_column_row_keys.
Qed.

Lemma remove_row_unique (s : State) (row_key : Key) :
  NoDup (row_keys s) -> NoDup (row_keys (state_of (remove_row s row_key))).
Proof.
  intros Hnd.
  destruct (has_key row_key (rows s)) eqn:Hhas.
  - destruct (proj2 (remove_row_cases s row_key) Hhas) as (s' & -> & _ & _ & _ & Hkeys & _).
    simpl. rewrite Hkeys. apply NoDup_filter, Hnd.
  - rewrite (proj1 (remove_row_cases s row_key) Hhas). exact Hnd.
Qed.

Lemma add_each_row_unique (new_rows : list (list Cell)) : forall (s : State),
  NoDup (row_keys s) -> NoDup (row_keys (state_of (add_each_row s new_rows))).
Proof.
  induction new_rows as [|r rest IH]; intros s Hnd; simpl; [exact Hnd|].
  pose proof (add_row_unique s r (Some 1) None None false None Hnd) as H1.
  destruct (add_row s r (Some 1) None None false None) as [s1 k|s1 e];
    cbn [bind state_of] in *.
  - apply IH, H1.
  - exact H1.
Qed.

Lemma rows_frame_unique (s s' : State) :
  rows s' = rows s -> NoDup (row_keys s) -> NoDup (row_keys s').
Proof. unfold row_keys. intros ->. auto. Qed.

Lemma reachable_unique (s : State) : reachable s -> NoDup (row_keys s).
Proof.
  induction 1 as [fixed show kind | v s _ IH | v s _ IH | v s _ IH | c s _ IH
                 | s label width key default _ IH Hd
                 | s cells height key label e sender _ IH Hc
                 | s row_key _ IH | s cols _ IH | s new_rows _ IH Hc
                 | s _ IH | s _ IH | s _ IH | s _ IH | s _ IH | s event _ IH].
  - apply NoDup_nil_2.
  - exact IH.
  - exact IH.
  - exact IH.
  - exact IH.
  - rewrite add_column_row_keys. exact IH.
  - apply add_row_unique, IH.
  - apply remove_row_unique, IH.
  - unfold row_keys. rewrite (proj1 (clear_remeasures s cols)). apply NoDup_nil_2.
  - unfold replace_all_rows.
    assert (Hclear : NoDup (row_keys (clear s false)))
      by (unfold row_keys; rewrite (proj1 (clear_remeasures s false)); apply NoDup_nil_2).
    pose proof (add_each_row_unique new_rows (clear s false) Hclear) as H.
    destruct (add_each_row (clear s false) new_rows) as [s2 rv|s2 e];
      cbn [bind state_of] in *; [|exact H].
    eapply rows_frame_unique; [|exact H].
    apply (column_width_refresh_trace s2).
  - eapply rows_frame_unique; [|exact IH].
    unfold action_toggle_fixed_columns. destruct (_fixed_columns_bak s); reflexivity.
  - eapply rows_frame_unique; [|exact IH]. apply (cursor_actions_frame s).
  - eapply rows_frame_unique; [|exact IH]. apply (cursor_actions_frame s).
  - unfold action_remove_row. rewrite state_of_except.
    destruct (DataTable.coordinate_to_cell_key s (cursor_coordinate s)) as [s1 k|s1 e] eqn:Hkey;
      cbn [bind state_of].
    + apply coordinate_to_cell_key_ok in Hkey as (-> & _). apply remove_row_unique, IH.
    + apply coordinate_to_cell_key_raise in Hkey as (-> & _). exact IH.
  - eapply rows_frame_unique; [|exact IH]. apply (action_toggle_row_frame s).
  - exact IH.
Qed.

(** X10: in every table a host can build through the methods and
    commands of the class, no two rows have the same key. *)
Theorem row_keys_stay_unique (s : State) : reachable s -> NoDup (row_keys s).
Proof. apply reachable_unique. Qed.

Lemma row_keys_stay_unique_witness : NoDup (row_keys two_rows).
Proof. apply (row_keys_stay_unique two_rows). exact two_rows_reachable. Defined.

(** X11: in every table a host can build through the methods and
    commands of the class with cells of the declared types, every
    [Checkbox] a row refers to exists in the store and belongs to that
    row alone: no two rows share one, so a toggle never shows in another
    row. *)
Theorem checkboxes_stay_owned (s : State) :
  reachable s ->
  (forall k l, checkbox_ref s k = Some l -> is_Some (checkboxes s !! l)) /\
  (forall k1 k2 l, checkbox_ref s k1 = Some l -> checkbox_ref s k2 = Some l -> k1 = k2).
Proof.
  intros H. destruct (reachable_owned s H) as (Hbound & Hunshared).
  split; [|exact Hunshared].
  intros k l Href. apply lookup_lt_is_Some. apply (Hbound k l Href).
Qed.

Lemma checkboxes_stay_owned_witness :
  (forall k l, checkbox_ref two_rows k = Some l -> is_Some (checkboxes two_rows !! l)) /\
  (forall k1 k2 l,
     checkbox_ref two_rows k1 = Some l -> checkbox_ref two_rows k2 = Some l -> k1 = k2).
Proof. apply (checkboxes_stay_owned two_rows). exact two_rows_reachable. Defined.

(** * Further properties of the bulk operations *)

(** What a successful [add_row] leaves. *)
Lemma add_row_ok (s s1 : State) cells height key label explicit_by_user sender (k : Key) :
  add_row s cells height key label explicit_by_user sender = Ok s1 k ->
  rows s1 =
    rows s ++ [(k, mkRow height label
                     (zip_longest (columns s)
                        (if row_disable s
                         then CheckboxRef (length (checkboxes s)) :: cells else cells)))] /\
  columns s1 = columns s /\
  row_disable s1 = row_disable s /\
  checkboxes s1 = (if row_disable s then checkboxes s ++ [true] else checkboxes s) /\
  trace s1 = trace s ++ [Posted (RowsAdded explicit_by_user (attached_sender sender))].
Proof.
  intros Hok.
  pose proof (add_row_rows s cells height key label explicit_by_user sender) as (Hc & Hrows).
  pose proof (add_row_effect s cells height key label explicit_by_user sender) as (Hb & _).
  pose proof (add_row_trace s cells height key label explicit_by_user sender) as Ht.
  assert (Hd : row_disable
                 (state_of (add_row s cells height key label explicit_by_user sender)) =
               row_disable s).
  { unfold add_row. destruct (row_disable s) eqn:Hmode; simpl;
      match goal with |- context [DataTable.add_row ?s' ?c ?h ?k ?l] =>
        pose proof (base_add_row_effect s' c h k l) as (_ & _ & Hd' & _) end;
      simpl in Hd'; rewrite Hd'; exact Hmode. }
  simpl in Hc, Hrows, Hb, Ht. rewrite Hok in Hc, Hrows, Hb, Ht, Hd. simpl in *.
  destruct Hrows as [(Hraised & _) | (k' & Hk & _ & _ & Hnew)]; [congruence|].
  inversion Hk; subst k'. auto.
Qed.

Lemma clamp_zero (hi : Z) : DataTable.clamp 0 0 hi = 0.
Proof.
  unfold DataTable.clamp.
  destruct (Z.ltb_spec hi 0); [destruct (Z.ltb_spec 0 hi); [lia|] |]; reflexivity.
Qed.

Lemma clear_effect (s : State) (cols : bool) :
  rows (clear s cols) = [] /\
  columns (clear s cols) = (if cols then [] else columns s) /\
  row_disable (clear s cols) = row_disable s /\
  checkboxes (clear s cols) = checkboxes s /\
  cursor_coordinate (clear s cols) = mkCoordinate 0 0 /\
  trace (clear s cols) = trace s ++ [Posted (RowsRemoved false)].
Proof.
  destruct (clear_remeasures s cols) as (Hr & Ht).
  split; [exact Hr|]. split; [|split; [|split; [|split; [|exact Ht]]]].
  - unfold clear.
    match goal with |- context [_column_width_refresh ?s'] =>
      pose proof (column_width_refresh_trace s') as (_ & _ & Hc & _) end.
    rewrite Hc. destruct cols; reflexivity.
  - unfold clear, _column_width_refresh, DataTable.row_count. destruct cols; reflexivity.
  - unfold clear.
    match goal with |- context [_column_width_refresh ?s'] =>
      pose proof (column_width_refresh_trace s') as (_ & Hb & _) end.
    rewrite Hb. destruct cols; reflexivity.
  - unfold clear, _column_width_refresh, DataTable.row_count, DataTable.clear,
      DataTable.set_cursor_coordinate, DataTable._clamp_cursor_coordinate.
    destruct cols; simpl; rewrite !clamp_zero; reflexivity.
Qed.

Lemma add_each_row_ok (new_rows : list (list Cell)) : forall (s s' : State),
  add_each_row s new_rows = Ok s' tt ->
  exists added,
    rows s' = rows s ++ added /\
    length added = length new_rows /\
    columns s' = columns s /\
    row_disable s' = row_disable s /\
    checkboxes s' =
      checkboxes s ++ (if row_disable s then repeat true (length new_rows) else []) /\
    trace s' = trace s ++ map (fun _ => Posted (RowsAdded false None)) new_rows /\
    (row_disable s = false ->
     map (fun kr => row_cells (snd kr)) added = map (zip_longest (columns s)) new_rows).
Proof.
  induction new_rows as [|r rest IH]; intros s s' Hrun; simpl in Hrun.
  - inversion Hrun; subst s'. exists []. simpl. rewrite !app_nil_r.
    destruct (row_disable s); rewrite ?app_nil_r; auto 10.
  - destruct (add_row s r (Some 1) None None false None) as [s1 k|s1 e] eqn:Hadd;
      cbn [bind] in Hrun; [|discriminate].
    apply add_row_ok in Hadd as (Hr1 & Hc1 & Hd1 & Hb1 & Ht1).
    destruct (IH s1 s' Hrun) as (added & Hr & Hlen & Hc & Hd & Hb & Ht & Hcells).
    eexists (_ :: added). rewrite Hr, Hr1, <- app_assoc. simpl.
    split; [reflexivity|]. split; [lia|]. split; [congruence|]. split; [congruence|].
    split.
    { rewrite Hb, Hb1, Hd1. destruct (row_disable s); simpl.
      - rewrite <- app_assoc. reflexivity.
      - reflexivity. }
    split; [rewrite Ht, Ht1, <- app_assoc; reflexivity|].
    intros Hmode. rewrite Hmode. rewrite Hcells by congruence. rewrite Hc1. reflexivity.
Qed.

(** X12: when [replace_all_rows] returns normally, the table holds as
    many rows as were supplied, in the order supplied, and none of the
    old ones; its columns are the old ones.  It has posted one
    RowsRemoved and then one RowsAdded per row, all marked as not made
    by the user, and has asked for the width refresh once, at the end,
    and only when a row was supplied.  In row-selection mode each new row
    brought one new checked checkbox; otherwise each row's cells are the
    supplied ones, padded to the columns. *)
Theorem replace_all_rows_success (s s' : State) (new_rows : list (list Cell)) :
  replace_all_rows s new_rows = Ok s' tt ->
  length (rows s') = length new_rows /\
  columns s' = columns s /\
  trace s' =
    trace s ++ Posted (RowsRemoved false)
            :: map (fun _ => Posted (RowsAdded false None)) new_rows
            ++ match new_rows with
               | [] => []
               | _ :: _ => [UpdateColumnWidths (first_row_cell_keys s')]
               end /\
  checkboxes s' =
    checkboxes s ++ (if row_disable s then repeat true (length new_rows) else []) /\
  (row_disable s = false ->
   map (fun kr => row_cells (snd kr)) (rows s') = map (zip_longest (columns s)) new_rows).
Proof.
  intros Hrun. unfold replace_all_rows in Hrun.
  destruct (clear_effect s false) as (Hr0 & Hc0 & Hd0 & Hb0 & _ & Ht0).
  destruct (add_each_row (clear s false) new_rows) as [s2 []|s2 e] eqn:Hadd;
    cbn [bind] in Hrun; [|discriminate].
  inversion Hrun; subst s'.
  destruct (add_each_row_ok new_rows _ _ Hadd)
    as (added & Hr & Hlen & Hc & Hd & Hb & Ht & Hcells).
  rewrite Hr0 in Hr. simpl in Hr. rewrite Hc0 in Hc, Hcells. rewrite Hd0 in Hb, Hcells.
  rewrite Hb0 in Hb. rewrite Ht0 in Ht.
  pose proof (column_width_refresh_trace s2) as (Hr' & Hb' & Hc' & Ht').
  destruct (column_width_refresh_remeasures s2) as (_ & _ & _ & Hfirst).
  rewrite Hr', Hb', Hc', Ht', Hfirst, Hr.
  split; [exact Hlen|]. split; [exact Hc|]. split; [|split; [exact Hb | exact Hcells]].
  rewrite Ht.
  destruct new_rows as [|r rest], added as [|a added']; simpl in Hlen; try discriminate;
    simpl; rewrite <- ?app_assoc; simpl; rewrite ?app_nil_r; reflexivity.
Qed.

Lemma replace_all_rows_success_witness :
  length (rows (state_of (replace_all_rows three_rows [[Str "x"]; [Str "y"; Str "z"]]))) =
  length [[Str "x"]; [Str "y"; Str "z"]].
Proof.
  apply (replace_all_rows_success three_rows
           (state_of (replace_all_rows three_rows [[Str "x"]; [Str "y"; Str "z"]]))
           [[Str "x"]; [Str "y"; Str "z"]]).
  vm_compute. reflexivity.
Defined.

(** X13: the handler of the two notifications sets the "empty" class
    from the row count it finds when it runs and touches nothing else of
    the table: after [clear] it marks the table empty, after an [add_row]
    that returned normally it marks it not empty, and after the removal
    of the only row it marks it empty again. *)
Theorem empty_class_follows_rows (s : State) (event : Message) :
  (rows (_on_rows_removed s event) = rows s /\
   trace (_on_rows_removed s event) = trace s /\
   checkboxes (_on_rows_removed s event) = checkboxes s) /\
  (forall cols, empty_class (_on_rows_removed (clear s cols) event) = true) /\
  (forall cells height key label explicit_by_user sender s' k,
     add_row s cells height key label explicit_by_user sender = Ok s' k ->
     empty_class (_on_rows_removed s' event) = false) /\
  (forall row_key r s',
     rows s = [(row_key, r)] ->
     remove_row s row_key = Ok s' tt ->
     empty_class (_on_rows_removed s' event) = true).
Proof.
  split; [repeat split; reflexivity|]. split; [|split].
  - intros cols. unfold _on_rows_removed, DataTable.row_count. simpl.
    rewrite (proj1 (clear_remeasures s cols)). reflexivity.
  - intros cells height key label e sender s' k Hok.
    apply add_row_ok in Hok as (Hr & _).
    unfold _on_rows_removed, DataTable.row_count. simpl.
    rewrite Hr, length_app. simpl. apply Z.eqb_neq. lia.
  - intros row_key r s' Hrows Hok.
    assert (Hhas : has_key row_key (rows s) = true).
    { rewrite Hrows. unfold has_key. simpl. rewrite Key_eqb_refl. reflexivity. }
    destruct (proj2 (remove_row_cases s row_key) Hhas)
      as (s'' & Hrun & _ & _ & _ & Hkeys & _).
    rewrite Hrun in Hok. inversion Hok; subst s''.
    unfold row_keys in Hkeys. rewrite Hrows in Hkeys. simpl in Hkeys.
    rewrite filter_cons, Key_eqb_refl in Hkeys.
    destruct (decide (true = false)); [discriminate|]. rewrite filter_nil in Hkeys.
    apply map_eq_nil in Hkeys.
    unfold _on_rows_removed, DataTable.row_count. simpl. rewrite Hkeys. reflexivity.
Qed.

Lemma empty_class_follows_rows_witness :
  empty_class
    (_on_rows_removed
       (state_of (add_row selectable [Str "a"; Str "b"] (Some 1) (Some "r0"%string)
                    None true None))
       (RowsAdded true None)) = false /\
  empty_class
    (_on_rows_removed (state_of (remove_row plain_one_row (Named "r0"%string)))
       (RowsRemoved true)) = true.
Proof.
  split.
  - apply (proj1 (proj2 (proj2 (empty_class_follows_rows selectable (RowsAdded true None))))
             [Str "a"; Str "b"] (Some 1) (Some "r0"%string) None true None
             (state_of (add_row selectable [Str "a"; Str "b"] (Some 1) (Some "r0"%string)
                          None true None))
             (Named "r0"%string)).
    vm_compute. reflexivity.
  - apply (proj2 (proj2 (proj2 (empty_class_follows_rows plain_one_row (RowsRemoved true))))
             (Named "r0"%string)
             (mkRow (Some 1) None [(Named "n"%string, Str "x")])
             (state_of (remove_row plain_one_row (Named "r0"%string)))).
    + vm_compute. reflexivity.
    + vm_compute. reflexivity.
Defined.

(** * Further properties of [add_column] *)

(** The first [add_column] of a table in row-selection mode. *)
Lemma add_column_first (s : State) label width key default :
  row_disable s = true ->
  columns s = [] ->
  (key <> Some "checkbox"%string ->
   exists s1 k, add_column s label width key default = Ok s1 k /\
                columns s1 = [checkbox_column; mkColumn k label width]) /\
  (key = Some "checkbox"%string ->
   exists s1, add_column s label width key default = Raise s1 DuplicateKey /\
              columns s1 = [checkbox_column]).
Proof.
  intros Hrd Hcols. unfold add_column. rewrite Hrd, Hcols. simpl.
  destruct (base_add_checkbox_column s Hcols) as (s' & -> & Hs'). cbn [bind].
  unfold DataTable.add_column.
  destruct (DataTable.make_key s' key) as [s'' k] eqn:Hk.
  pose proof (make_key_columns s' key) as (Hc & _). rewrite Hk in Hc. simpl in Hc.
  rewrite Hc, Hs'. unfold has_column. simpl. rewrite orb_false_r.
  split.
  - intros Hne. destruct (Key_eqb (Named "checkbox"%string) k) eqn:E.
    + exfalso. apply Key_eqb_eq in E. subst k.
      destruct key as [x|]; simpl in Hk; inversion Hk; subst. congruence.
    + eexists _, k. split; reflexivity.
  - intros ->. simpl in Hk. inversion Hk; subst k.
    rewrite Key_eqb_refl. exists s''. split; [reflexivity | congruence].
Qed.

(** X14: in row-selection mode, after [clear(columns=True)] the next
    [add_column] inserts the checkbox column again, in front of the
    requested column: the insertion depends on the column list being
    empty, not on having happened before. *)
Theorem add_column_after_clear_reinserts_checkbox (s : State) label width key default :
  row_disable s = true ->
  key <> Some "checkbox"%string ->
  exists s1 k,
    add_column (clear s true) label width key default = Ok s1 k /\
    columns s1 = [checkbox_column; mkColumn k label width].
Proof.
  intros Hrd Hkey.
  destruct (clear_effect s true) as (_ & Hc & Hd & _).
  apply (proj1 (add_column_first (clear s true) label width key default
                  (eq_trans Hd Hrd) Hc) Hkey).
Qed.

Lemma add_column_after_clear_reinserts_checkbox_witness :
  exists s1 k,
    add_column (clear two_rows true) (Some "Name"%string) None (Some "n"%string) NoCell =
      Ok s1 k /\
    columns s1 = [checkbox_column; mkColumn k (Some "Name"%string) None].
Proof.
  apply (add_column_after_clear_reinserts_checkbox two_rows
           (Some "Name"%string) None (Some "n"%string) NoCell).
  - vm_compute. reflexivity.
  - discriminate.
Defined.

(** X15: the key "checkbox" is taken by the column that row-selection
    mode inserts.  A first [add_column] that asks for that key raises
    [DuplicateKey], and the table is left with the checkbox column alone;
    so does any later [add_column] asking for it, which leaves the
    columns as they were. *)
Theorem add_column_checkbox_key_collides (s : State) label width default :
  row_disable s = true ->
  (columns s = [] ->
   exists s1, add_column s label width (Some "checkbox"%string) default
                = Raise s1 DuplicateKey /\
              columns s1 = [checkbox_column]) /\
  (has_column (Named "checkbox"%string) (columns s) = true ->
   add_column s label width (Some "checkbox"%string) default = Raise s DuplicateKey).
Proof.
  intros Hrd. split.
  - intros Hcols.
    apply (proj2 (add_column_first s label width (Some "checkbox"%string) default Hrd Hcols)).
    reflexivity.
  - intros Hhas. rewrite add_column_nonempty.
    + unfold DataTable.add_column. simpl. rewrite Hhas. reflexivity.
    + intros Hnil. rewrite Hnil in Hhas. discriminate.
Qed.

Lemma add_column_checkbox_key_collides_witness :
  (exists s1,
     add_column (set_row_disable true (__init__ 1 true row_cursor))
       (Some "Enabled"%string) None (Some "checkbox"%string) NoCell
       = Raise s1 DuplicateKey /\
     columns s1 = [checkbox_column]) /\
  add_column selectable (Some "Enabled"%string) None (Some "checkbox"%string) NoCell
    = Raise selectable DuplicateKey.
Proof.
  split.
  - apply (proj1 (add_column_checkbox_key_collides
                    (set_row_disable true (__init__ 1 true row_cursor))
                    (Some "Enabled"%string) None NoCell eq_refl)).
    vm_compute. reflexivity.
  - assert (Hmode : row_disable selectable = true) by (vm_compute; reflexivity).
    apply (proj2 (add_column_checkbox_key_collides selectable
                    (Some "Enabled"%string) None NoCell Hmode)).
    vm_compute. reflexivity.
Defined.

(** * Further properties of toggle-fixed-columns *)

Lemma toggle_fixed_columns_backup (s : State) :
  _fixed_columns_bak (action_toggle_fixed_columns s) =
  Some (match _fixed_columns_bak s with Some b => b | None => fixed_columns s end).
Proof.
  unfold action_toggle_fixed_columns. destruct (_fixed_columns_bak s) as [b|] eqn:Hb; simpl.
  - exact Hb.
  - reflexivity.
Qed.

Lemma toggle_fixed_columns_count (s : State) :
  fixed_columns (action_toggle_fixed_columns s) =
  if fixed_columns s =? 0
  then match _fixed_columns_bak s with Some b => b | None => fixed_columns s end
  else 0.
Proof.
  unfold action_toggle_fixed_columns. destruct (_fixed_columns_bak s) as [b|] eqn:Hb; simpl.
  - rewrite Hb. reflexivity.
  - reflexivity.
Qed.

(** X16: the count to restore is remembered by the first press and never
    replaced.  After any press the count is 0 or the remembered one, and
    from the first press on the count repeats with period two, whatever
    values the table started from. *)
Theorem toggle_fixed_columns_alternates (s : State) (n : nat) :
  _fixed_columns_bak (toggle_fixed_columns_times (S n) s) =
    _fixed_columns_bak (action_toggle_fixed_columns s) /\
  (fixed_columns (toggle_fixed_columns_times (S n) s) = 0 \/
   _fixed_columns_bak (toggle_fixed_columns_times (S n) s) =
     Some (fixed_columns (toggle_fixed_columns_times (S n) s))) /\
  fixed_columns (toggle_fixed_columns_times (S (S (S n))) s) =
    fixed_columns (toggle_fixed_columns_times (S n) s).
Proof.
  assert (Hbak : forall m, _fixed_columns_bak (toggle_fixed_columns_times (S m) s) =
                           _fixed_columns_bak (action_toggle_fixed_columns s)).
  { induction m as [|m IH]; [reflexivity|].
    change (toggle_fixed_columns_times (S (S m)) s)
      with (action_toggle_fixed_columns (toggle_fixed_columns_times (S m) s)).
    rewrite toggle_fixed_columns_backup, IH, toggle_fixed_columns_backup. reflexivity. }
  assert (Hstep : fixed_columns (toggle_fixed_columns_times (S n) s) = 0 \/
                  _fixed_columns_bak (toggle_fixed_columns_times (S n) s) =
                    Some (fixed_columns (toggle_fixed_columns_times (S n) s))).
  { change (toggle_fixed_columns_times (S n) s)
      with (action_toggle_fixed_columns (toggle_fixed_columns_times n s)).
    rewrite toggle_fixed_columns_backup, toggle_fixed_columns_count.
    destruct (fixed_columns (toggle_fixed_columns_times n s) =? 0); auto. }
  split; [apply Hbak|]. split; [exact Hstep|].
  change (toggle_fixed_columns_times (S (S (S n))) s)
    with (action_toggle_fixed_columns
            (action_toggle_fixed_columns (toggle_fixed_columns_times (S n) s))).
  rewrite toggle_fixed_columns_twice_value.
  destruct (_fixed_columns_bak (toggle_fixed_columns_times (S n) s)) as [b|] eqn:Hb;
    [|reflexivity].
  destruct (Z.eqb_spec (fixed_columns (toggle_fixed_columns_times (S n) s)) 0) as [E|E];
    [reflexivity|].
  destruct Hstep as [H|H]; congruence.
Qed.

(** X17: when the first press finds no fixed column, 0 is what is
    remembered, and from then on every press sets the count to 0: the key
    can no longer switch fixed columns on, even after the host has
    assigned a count in between. *)
Theorem toggle_fixed_columns_stuck_at_zero (s : State) :
  (_fixed_columns_bak s = None /\ fixed_columns s = 0) \/ _fixed_columns_bak s = Some 0 ->
  _fixed_columns_bak (action_toggle_fixed_columns s) = Some 0 /\
  fixed_columns (action_toggle_fixed_columns s) = 0 /\
  forall v,
    fixed_columns (action_toggle_fixed_columns
                     (set_fixed_columns v (action_toggle_fixed_columns s))) = 0.
Proof.
  intros H.
  assert (Hbak : _fixed_columns_bak (action_toggle_fixed_columns s) = Some 0).
  { rewrite toggle_fixed_columns_backup. destruct H as [(-> & ->) | ->]; reflexivity. }
  split; [exact Hbak|]. split.
  - rewrite toggle_fixed_columns_count.
    destruct H as [(-> & ->) | ->]; [reflexivity|].
    destruct (fixed_columns s =? 0); reflexivity.
  - intros v. rewrite toggle_fixed_columns_count.
    change (fixed_columns (set_fixed_columns v (action_toggle_fixed_columns s))) with v.
    change (_fixed_columns_bak (set_fixed_columns v (action_toggle_fixed_columns s)))
      with (_fixed_columns_bak (action_toggle_fixed_columns s)).
    rewrite Hbak. destruct (v =? 0); reflexivity.
Qed.

Lemma toggle_fixed_columns_stuck_at_zero_witness :
  _fixed_columns_bak (action_toggle_fixed_columns (__init__ 0 true cell_cursor)) = Some 0 /\
  fixed_columns (action_toggle_fixed_columns (__init__ 0 true cell_cursor)) = 0 /\
  forall v,
    fixed_columns (action_toggle_fixed_columns
                     (set_fixed_columns v
                        (action_toggle_fixed_columns (__init__ 0 true cell_cursor)))) = 0.
Proof.
  apply (toggle_fixed_columns_stuck_at_zero (__init__ 0 true cell_cursor)).
  left. split; reflexivity.
Defined.

(** * Further properties of [add_row] *)

(** X18: in a table built through the class, [add_row] leaves the rows
    that are already there alone, whether it returns or raises: each
    keeps its cells and its checked state, and the columns are
    unchanged. *)
Theorem add_row_keeps_other_rows (s : State) cells height key label explicit_by_user sender
    (other : Key) :
  reachable s ->
  has_key other (rows s) = true ->
  let s' := state_of (add_row s cells height key label explicit_by_user sender) in
  lookup_key other (rows s') = lookup_key other (rows s) /\
  row_checked s' other = row_checked s other /\
  columns s' = columns s.
Proof.
  intros Hreach Hhas s'.
  destruct (reachable_owned s Hreach) as (Hbound & _).
  pose proof (add_row_rows s cells height key label explicit_by_user sender) as (Hc & Hrows).
  pose proof (add_row_effect s cells height key label explicit_by_user sender) as (Hb & _).
  fold s' in Hc, Hrows, Hb. simpl in Hc, Hrows, Hb.
  assert (Hlook : lookup_key other (rows s') = lookup_key other (rows s)).
  { destruct Hrows as [(_ & ->) | (k & _ & _ & _ & ->)]; [reflexivity|].
    rewrite lookup_key_app. unfold has_key in Hhas.
    destruct (lookup_key other (rows s)); [reflexivity | discriminate]. }
  split; [exact Hlook|]. split; [|exact Hc].
  rewrite !row_checked_ref.
  assert (Href : checkbox_ref s' other = checkbox_ref s other)
    by (unfold checkbox_ref; rewrite Hlook; reflexivity).
  rewrite Href. destruct (checkbox_ref s other) as [l|] eqn:Hl; [|reflexivity].
  apply Hbound in Hl. rewrite Hb.
  destruct (row_disable s); [|reflexivity].
  apply lookup_app_l. exact Hl.
Qed.

Lemma add_row_keeps_other_rows_witness :
  lookup_key (Named "r0"%string)
    (rows (state_of (add_row two_rows [Str "e"; Str "f"] (Some 1) (Some "r2"%string)
                       None true None))) =
  lookup_key (Named "r0"%string) (rows two_rows) /\
  row_checked (state_of (add_row two_rows [Str "e"; Str "f"] (Some 1) (Some "r2"%string)
                           None true None)) (Named "r0"%string) =
  row_checked two_rows (Named "r0"%string) /\
  columns (state_of (add_row two_rows [Str "e"; Str "f"] (Some 1) (Some "r2"%string)
                       None true None)) =
  columns two_rows.
Proof.
  apply (add_row_keeps_other_rows two_rows [Str "e"; Str "f"] (Some 1) (Some "r2"%string)
           None true None (Named "r0"%string)).
  - exact two_rows_reachable.
  - vm_compute. reflexivity.
Defined.
